(** * NutriWise: derived metrics, targets, backup and estimator transport

    A shallow embedding of the business logic of the NutriWise PWA:

    - [Dashboard]      daily totals, training-load detector, 7-day chart and
                       the BMR -> TDEE -> goal pipeline (components/Dashboard);
    - [EntryForm]      client-side rescaling of an analysed food item;
    - [GeminiService]  the retrying transport wrapper [callApi] and
                       [estimateExerciseCalories] with its offline fallback;
    - [App]            [exportData] / [importData] of the backup document.

    The calendar functions of date-fns act in the time zone of the device,
    which is a parameter ([Zone]); every reading of the clock is an
    argument of the function that reads it.

    JavaScript numbers are IEEE-754 binary64 values and are modelled by the
    kernel's primitive floats, so every arithmetic step rounds as it does in
    the browser.  Quantities that the program only ever uses as integers
    (epoch milliseconds, HTTP status codes, back-off delays, loop counters)
    are modelled by [Z] and [nat]. *)

From Stdlib Require Import ZArith List Bool String Ascii Floats Lia.
From Stdlib Require Import Sorting.Sorted Sorting.Permutation.
Import ListNotations.

Set Warnings "-inexact-float,-register-all".

(* ================================================================== *)
(** * Part I. The embedding                                            *)
(* ================================================================== *)

(** ** JavaScript values and built-ins *)

Module JS.

Open Scope float_scope.

Definition number := float.

(** [Math.round]: the integral number closest to [x], ties towards
    +infinity; NaN, the infinities and integral values are returned as
    they are, and a result of zero keeps the sign of [x].  The value is
    computed exactly on the decoded mantissa and exponent. *)
Definition Math_round (x : number) : number :=
  match Prim2SF x with
  | S754_finite s m e =>
      if (0 <=? e)%Z then x
      else
        let sm := if s then Z.neg m else Z.pos m in
        let n := ((2 * sm + 2 ^ (- e)) / 2 ^ (1 - e))%Z in
        if (n =? 0)%Z then (if s then neg_zero else zero)
        else if (n <? 0)%Z then - (of_uint63 (Uint63.of_Z (- n)))
        else of_uint63 (Uint63.of_Z n)
  | _ => x
  end.

(** [Math.max] of two arguments: NaN if either is NaN, and +0 is larger
    than -0. *)
Definition Math_max (a b : number) : number :=
  if is_nan a || is_nan b then nan
  else if a <? b then b
  else if b <? a then a
  else if get_sign a then b else a.

(** Left-to-right accumulation [((0 + x1) + x2) + ...], the way a
    [reduce] or a [+=] loop adds numbers up. *)
Definition sum (xs : list number) : number := fold_left add xs zero.

(** Strings are sequences of code units below 256. *)

(** [String.prototype.toLowerCase] on the Latin-1 range: A-Z and the
    accented capitals U+00C0..U+00DE (U+00D7, the multiplication sign,
    excepted) move up by 32; every other code unit is kept. *)
Definition toLowerCase_unit (c : ascii) : ascii :=
  let n := nat_of_ascii c in
  if ((65 <=? n) && (n <=? 90))%nat then ascii_of_nat (n + 32)
  else if ((192 <=? n) && (n <=? 222) && negb (n =? 215))%nat
       then ascii_of_nat (n + 32)
       else c.

Fixpoint toLowerCase (s : string) : string :=
  match s with
  | EmptyString => EmptyString
  | String c s' => String (toLowerCase_unit c) (toLowerCase s')
  end.

Fixpoint startsWith (s sub : string) : bool :=
  match sub, s with
  | EmptyString, _ => true
  | String _ _, EmptyString => false
  | String b sub', String a s' => Ascii.eqb a b && startsWith s' sub'
  end.

(** [String.prototype.includes]: does [sub] occur somewhere in [s]? *)
Fixpoint includes (s sub : string) : bool :=
  startsWith s sub
  || match s with
     | EmptyString => false
     | String _ s' => includes s' sub
     end.

(** Decimal rendering of a non-negative integer (template literals). *)
Definition digit (d : Z) : ascii := ascii_of_nat (48 + Z.to_nat d).

Fixpoint digits (fuel : nat) (n : Z) (acc : string) : string :=
  match fuel with
  | O => acc
  | S fuel' =>
      let acc' := String (digit (n mod 10)) acc in
      if (n <? 10)%Z then acc' else digits fuel' (n / 10) acc'
  end.

Definition Z_toString (n : Z) : string :=
  digits (S (Z.to_nat (Z.log2 n))) n EmptyString.

(** Values as they live in memory after [JSON.parse], or as the program
    builds them.  Objects keep their properties in insertion order. *)
Inductive value :=
| JUndefined
| JNull
| JBool (b : bool)
| JNum (x : number)
| JStr (s : string)
| JArr (elems : list value)
| JObj (props : list (string * value)).

(** ToBoolean. *)
Definition truthy (v : value) : bool :=
  match v with
  | JUndefined | JNull => false
  | JBool b => b
  | JNum x => negb (is_nan x || is_zero x)
  | JStr s => negb (String.eqb s EmptyString)
  | JArr _ | JObj _ => true
  end.

(** What evaluating an expression or calling a function yields. *)
Inductive outcome (A : Type) :=
| Returned (a : A)
| Thrown (message : string).
Arguments Returned {A} a.
Arguments Thrown {A} message.

Fixpoint lookup (key : string) (props : list (string * value)) : value :=
  match props with
  | [] => JUndefined
  | (k, v) :: rest => if String.eqb k key then v else lookup key rest
  end.

(** [v.key] for a data property: a TypeError on [null] and [undefined],
    the own property of an object, [undefined] elsewhere. *)
Definition get (v : value) (key : string) : outcome value :=
  match v with
  | JUndefined =>
      Thrown ("Cannot read properties of undefined (reading '" ++ key ++ "')")
  | JNull =>
      Thrown ("Cannot read properties of null (reading '" ++ key ++ "')")
  | JObj props => Returned (lookup key props)
  | _ => Returned JUndefined
  end.

(** [a || b]. *)
Definition or_else (a b : value) : value := if truthy a then a else b.

(** [key] is an own property of the object. *)
Definition hasOwn (key : string) (props : list (string * value)) : bool :=
  existsb (fun '(k, _) => String.eqb k key) props.

(** [v.toString()] throws a TypeError, for a value without functions in
    it (such as parsed JSON): an object whose own [toString] property
    hides the inherited method cannot be called upon, and an array joins
    the texts of its elements, of which [null] and [undefined] are blank
    and an object with an own [toString] cannot be converted. *)
Fixpoint toString_throws (v : value) : bool :=
  match v with
  | JObj props => hasOwn "toString" props
  | JArr elems => existsb toString_throws elems
  | _ => false
  end.

(** The value [JSON.parse (JSON.stringify v)] for a value [v] nested in a
    document: NaN and the infinities are written as [null], -0 as [0],
    [undefined] becomes [null] in an array and its property is left out
    of an object; everything else is read back as it was written. *)
Fixpoint JSON_normalize (v : value) : value :=
  match v with
  | JUndefined => JNull
  | JNull => JNull
  | JBool b => JBool b
  | JNum x =>
      if is_nan x || is_infinity x then JNull
      else if Leibniz.eqb x neg_zero then JNum zero
      else JNum x
  | JStr s => JStr s
  | JArr elems => JArr (map JSON_normalize elems)
  | JObj props =>
      JObj ((fix go (ps : list (string * value)) : list (string * value) :=
               match ps with
               | [] => []
               | (k, JUndefined) :: rest => go rest
               | (k, w) :: rest => (k, JSON_normalize w) :: go rest
               end) props)
  end.

(** [Math.min] of two arguments: NaN if either is NaN, and -0 is smaller
    than +0. *)
Definition Math_min (a b : number) : number :=
  if is_nan a || is_nan b then nan
  else if a <? b then a
  else if b <? a then b
  else if get_sign a then a else b.

(** [Array.prototype.sort] with a comparator.  The sort is stable, and for
    a comparator that orders the elements consistently the stable result
    is unique; it is computed here by insertion from the right, an element
    going in front of the first one it does not have to follow. *)
Fixpoint sortInsert {A : Type} (compareFn : A -> A -> Z) (x : A) (l : list A)
  : list A :=
  match l with
  | [] => [x]
  | y :: rest =>
      if (compareFn x y <=? 0)%Z then x :: l
      else y :: sortInsert compareFn x rest
  end.

Fixpoint Array_sort {A : Type} (compareFn : A -> A -> Z) (l : list A) : list A :=
  match l with
  | [] => []
  | x :: rest => sortInsert compareFn x (Array_sort compareFn rest)
  end.

(** White space and line terminators among the code units below 256. *)
Definition isWhiteSpace (c : ascii) : bool :=
  let n := nat_of_ascii c in
  (((9 <=? n) && (n <=? 13)) || (n =? 32) || (n =? 160))%nat.

Fixpoint trimStart (s : string) : string :=
  match s with
  | EmptyString => EmptyString
  | String c rest => if isWhiteSpace c then trimStart rest else s
  end.

Fixpoint trimEnd (s : string) : string :=
  match s with
  | EmptyString => EmptyString
  | String c rest =>
      match trimEnd rest with
      | EmptyString => if isWhiteSpace c then EmptyString else String c EmptyString
      | kept => String c kept
      end
  end.

(** [String.prototype.trim]. *)
Definition trim (s : string) : string := trimEnd (trimStart s).

End JS.

(** ** types.ts *)

Inductive Level := low | medium | high.
Inductive Gender := male | female | other.
Inductive ActivityLevel := sedentary | light | moderate | active | athlete.
Inductive Goal := lose_fat | maintain | gain_muscle.
Inductive EntryType := food | exercise | note.

Module FoodItem.
Record t := {
  name : string;
  quantity : JS.number;
  unit : string;
  calories : JS.number;
  protein : JS.number;
  carbs : JS.number;
  fat : JS.number;
  baseCalories : JS.number;
  baseProtein : JS.number;
  baseCarbs : JS.number;
  baseFat : JS.number;
  confidence : Level;
  notes : option string
}.
End FoodItem.

Module ExerciseItem.
Record t := {
  name : string;
  durationMinutes : JS.number;
  caloriesBurned : JS.number;
  intensity : Level
}.
End ExerciseItem.

Module LogEntry.
(** [type] is the tag; [items], [exercise] and [noteContent] are the
    optional payloads, present or not independently of the tag. *)
Record t := {
  id : string;
  timestamp : Z;
  type : EntryType;
  items : option (list FoodItem.t);
  exercise : option ExerciseItem.t;
  noteContent : option string;
  image : option string
}.
End LogEntry.

Module UserProfile.
Record t := {
  name : string;
  age : JS.number;
  heightCm : JS.number;
  weightKg : JS.number;
  gender : Gender;
  activityLevel : ActivityLevel;
  goal : Goal;
  dietaryPreferences : string
}.
End UserProfile.

(** ** components/Dashboard *)

Module Totals.
Record t := {
  calories : JS.number;
  protein : JS.number;
  carbs : JS.number;
  fat : JS.number;
  burned : JS.number
}.
End Totals.

Module MacroTargets.
Record t := {
  protein : JS.number;
  carbs : JS.number;
  fat : JS.number
}.
End MacroTargets.

Module Targets.
Record t := {
  calorieTarget : JS.number;
  macroTargets : MacroTargets.t;
  adviceMessage : string
}.
End Targets.

Module ChartPoint.
Record t := { name : string; calories : JS.number }.
End ChartPoint.

(** ** Calendar days (date-fns)

    Instants are epoch milliseconds.  [startOfDay] and [subDays] are the
    date-fns functions as they act on instants in the device's time zone,
    whatever its rules; [localDay] is the number of the local calendar date
    an instant falls on, counted from 1 January 1970, which is what
    [format] prints from. *)

Module Zone.
Record t := {
  localDay : Z -> Z;
  startOfDay : Z -> Z;
  subDays : Z -> Z -> Z
}.
End Zone.

Module Zones.

Definition msPerDay : Z := 86400000.

(** What [startOfDay] is in every zone: an instant of the same day, and the
    same instant for all instants of a day. *)
Definition Days (z : Zone.t) : Prop :=
  (forall t, Zone.localDay z (Zone.startOfDay z t) = Zone.localDay z t)
  /\ (forall a b, Zone.localDay z a = Zone.localDay z b ->
                  Zone.startOfDay z a = Zone.startOfDay z b).

(** Going back [n] days lands [n] calendar dates earlier.  This holds
    wherever no calendar date is skipped by a clock change. *)
Definition DaysBack (z : Zone.t) : Prop :=
  forall t n, Zone.localDay z (Zone.subDays z t n) = (Zone.localDay z t - n)%Z.

Definition Laws (z : Zone.t) : Prop := Days z /\ DaysBack z.

(** A zone that is always [tzOffset] milliseconds east of UTC. *)
Definition fixedOffset (tzOffset : Z) : Zone.t :=
  {| Zone.localDay := fun t => ((t + tzOffset) / msPerDay)%Z;
     Zone.startOfDay :=
       fun t => ((t + tzOffset) / msPerDay * msPerDay - tzOffset)%Z;
     Zone.subDays := fun t n => (t - n * msPerDay)%Z |}.

(** A zone whose clocks change once, at the instant [change]: it is
    [before] milliseconds east of UTC until then and [after] from then on.
    A wall-clock reading that occurs twice (clocks put back) stands for its
    first occurrence, and one that is skipped (clocks put forward) is read
    with the offset in force before the change, as a [Date] does. *)
Definition offsetAt (change before after : Z) (t : Z) : Z :=
  if (t <? change)%Z then before else after.

Definition wallClock (change before after : Z) (t : Z) : Z :=
  (t + offsetAt change before after t)%Z.

Definition instantOf (change before after : Z) (wall : Z) : Z :=
  if (wall - before <? change)%Z then (wall - before)%Z
  else if (change <=? wall - after)%Z then (wall - after)%Z
  else (wall - before)%Z.

Definition clockChange (change before after : Z) : Zone.t :=
  {| Zone.localDay := fun t => (wallClock change before after t / msPerDay)%Z;
     Zone.startOfDay :=
       fun t => instantOf change before after
                  (wallClock change before after t / msPerDay * msPerDay)%Z;
     Zone.subDays :=
       fun t n => instantOf change before after
                    (wallClock change before after t - n * msPerDay)%Z |}.

End Zones.

Module Dashboard.

Import JS.
Open Scope float_scope.

Section Calendar.

Variable zone : Zone.t.

(** Number of the local calendar day an instant falls in. *)
Definition localDay (t : Z) : Z := Zone.localDay zone t.

Definition startOfDay (t : Z) : Z := Zone.startOfDay zone t.

(** [isSameDay]: the two instants have the same start of day. *)
Definition isSameDay (a b : Z) : bool := (startOfDay a =? startOfDay b)%Z.

Definition subDays (t : Z) (amount : Z) : Z := Zone.subDays zone t amount.

(** [format(date, 'EEE')]: day 0 (1 January 1970) was a Thursday. *)
Definition weekdayNames : list string :=
  ["Sun"; "Mon"; "Tue"; "Wed"; "Thu"; "Fri"; "Sat"]%string.

Definition weekdayOfDay (day : Z) : string :=
  nth (Z.to_nat ((day + 4) mod 7)) weekdayNames EmptyString.

Definition format_EEE (t : Z) : string := weekdayOfDay (localDay t).

(** *** Today's totals and the training-load signal *)

Definition zeroTotals : Totals.t :=
  {| Totals.calories := 0; Totals.protein := 0; Totals.carbs := 0;
     Totals.fat := 0; Totals.burned := 0 |}.

(** Body of [log.items.forEach]: [acc] is updated in place. *)
Definition addItem (acc : Totals.t) (item : FoodItem.t) : Totals.t :=
  {| Totals.calories := Totals.calories acc + FoodItem.calories item;
     Totals.protein := Totals.protein acc + FoodItem.protein item;
     Totals.carbs := Totals.carbs acc + FoodItem.carbs item;
     Totals.fat := Totals.fat acc + FoodItem.fat item;
     Totals.burned := Totals.burned acc |}.

Definition addBurned (acc : Totals.t) (ex : ExerciseItem.t) : Totals.t :=
  {| Totals.calories := Totals.calories acc;
     Totals.protein := Totals.protein acc;
     Totals.carbs := Totals.carbs acc;
     Totals.fat := Totals.fat acc;
     Totals.burned := Totals.burned acc + ExerciseItem.caloriesBurned ex |}.

(** The reducer of [todayLogs.reduce]. *)
Definition addLog (acc : Totals.t) (log : LogEntry.t) : Totals.t :=
  match LogEntry.type log, LogEntry.items log with
  | food, Some items => fold_left addItem items acc
  | _, _ =>
      match LogEntry.type log, LogEntry.exercise log with
      | exercise, Some ex => addBurned acc ex
      | _, _ => acc
      end
  end.

Definition todayLogs (logs : list LogEntry.t) (now : Z) : list LogEntry.t :=
  let start := startOfDay now in
  filter (fun log => isSameDay (LogEntry.timestamp log) start) logs.

Definition todayTotals (logs : list LogEntry.t) (now : Z) : Totals.t :=
  fold_left addLog (todayLogs logs now) zeroTotals.

Definition isStrength (l : LogEntry.t) : bool :=
  match LogEntry.type l, LogEntry.exercise l with
  | exercise, Some ex =>
      match ExerciseItem.intensity ex with high => true | _ => false end
      || includes (toLowerCase (ExerciseItem.name ex)) "weight"
      || includes (toLowerCase (ExerciseItem.name ex)) "strength"
      || includes (toLowerCase (ExerciseItem.name ex)) "lift"
  | _, _ => false
  end.

Definition hasStrength (logs : list LogEntry.t) (now : Z) : bool :=
  existsb isStrength (todayLogs logs now).

(** *** Chart data (last 7 days) *)

(** The reducer of [dailyLogs.reduce]. *)
Definition addFoodCalories (sum : number) (log : LogEntry.t) : number :=
  match LogEntry.type log, LogEntry.items log with
  | food, Some items =>
      sum + fold_left (fun s item => s + FoodItem.calories item) items 0
  | _, _ => sum
  end.

(** One turn of the loop body for the counter value [i]; [now] is what
    [new Date()] reads in that turn. *)
Definition chartPoint (logs : list LogEntry.t) (now : Z) (i : nat)
  : ChartPoint.t :=
  let date := subDays now (Z.of_nat i) in
  let dailyLogs :=
    filter (fun log => isSameDay (LogEntry.timestamp log) date) logs in
  let calories := fold_left addFoodCalories dailyLogs 0 in
  {| ChartPoint.name := format_EEE date; ChartPoint.calories := calories |}.

(** [for (let i = ...; i >= 0; i--) data.push(...)], entered at counter
    value [i] with the points pushed so far.  The clock is read anew in
    every turn: [clock i] is the reading of the turn with counter [i]. *)
Fixpoint chartLoop (logs : list LogEntry.t) (clock : nat -> Z) (i : nat)
  (data : list ChartPoint.t) : list ChartPoint.t :=
  let data' := data ++ [chartPoint logs (clock i) i] in
  match i with
  | O => data'
  | S j => chartLoop logs clock j data'
  end.

Definition chartData (logs : list LogEntry.t) (clock : nat -> Z)
  : list ChartPoint.t :=
  chartLoop logs clock 6 [].

(** *** Today's log list

    [logs.filter(l => isSameDay(new Date(l.timestamp), new Date()))]: the
    callback reads the clock for every entry; [clock i] is the reading for
    the entry at index [i], and [i] the index of the first entry of
    [logs]. *)
Fixpoint todaysFilter (logs : list LogEntry.t) (clock : nat -> Z) (i : nat)
  : list LogEntry.t :=
  match logs with
  | [] => []
  | l :: rest =>
      if isSameDay (LogEntry.timestamp l) (clock i)
      then l :: todaysFilter rest clock (S i)
      else todaysFilter rest clock (S i)
  end.

(** [logs.filter(...).sort(...)]: the filter makes a fresh array, which is
    then sorted newest first. *)
Definition todaysLogList (logs : list LogEntry.t) (clock : nat -> Z)
  : list LogEntry.t :=
  Array_sort (fun a b => (LogEntry.timestamp b - LogEntry.timestamp a)%Z)
    (todaysFilter logs clock 0).

End Calendar.

(** *** Dynamic TDEE and goal calculation, macros included *)

Definition activityMultipliers (a : ActivityLevel) : number :=
  match a with
  | sedentary => 1.2
  | light => 1.375
  | moderate => 1.55
  | active => 1.725
  | athlete => 1.9
  end.

Definition bmr (profile : UserProfile.t) : number :=
  let bmr := 10 * UserProfile.weightKg profile
             + 6.25 * UserProfile.heightCm profile
             - 5 * UserProfile.age profile in
  bmr + (match UserProfile.gender profile with male => 5 | _ => -161 end).

Definition tdee (profile : UserProfile.t) : number :=
  Math_round (bmr profile * activityMultipliers (UserProfile.activityLevel profile)).

(** The three mutable locals [target], [msg] and [proteinFactor] after the
    goal branch. *)
Definition goalBranch (goal : Goal) (exerciseFocus : bool) (tdee : number)
  : number * string * number :=
  let target := tdee in
  let msg := EmptyString in
  let proteinFactor := 1.2 in
  match goal with
  | lose_fat =>
      if exerciseFocus
      then (tdee - 250,
            "Workout detected: Deficit reduced & Protein bumped for recovery."%string,
            2.0)
      else (tdee - 500, msg, 1.8)
  | gain_muscle =>
      let target := tdee + 300 in
      let proteinFactor := 2.0 in
      if exerciseFocus
      then (target, "Great work! Fuel up for growth."%string, 2.2)
      else (target, msg, proteinFactor)
  | maintain =>
      let proteinFactor := 1.4 in
      (target, msg, if exerciseFocus then 1.6 else proteinFactor)
  end.

Definition targets (profile : UserProfile.t) (exerciseFocus : bool) : Targets.t :=
  let '(target, msg, proteinFactor) :=
    goalBranch (UserProfile.goal profile) exerciseFocus (tdee profile) in
  let targetProtein := Math_round (UserProfile.weightKg profile * proteinFactor) in
  let targetFat := Math_round ((target * 0.25) / 9) in
  let targetCarbs :=
    Math_max 0 (Math_round ((target - (targetProtein * 4) - (targetFat * 9)) / 4)) in
  {| Targets.calorieTarget := target;
     Targets.macroTargets :=
       {| MacroTargets.protein := targetProtein;
          MacroTargets.carbs := targetCarbs;
          MacroTargets.fat := targetFat |};
     Targets.adviceMessage := msg |}.

(** *** The pipeline as the specification words it *)

Definition spec_bmr (p : UserProfile.t) : number :=
  let base := 10 * UserProfile.weightKg p + 6.25 * UserProfile.heightCm p
              - 5 * UserProfile.age p in
  match UserProfile.gender p with
  | male => base + 5
  | _ => base - 161
  end.

Definition spec_tdee (p : UserProfile.t) : number :=
  Math_round
    (spec_bmr p *
     match UserProfile.activityLevel p with
     | sedentary => 1.2 | light => 1.375 | moderate => 1.55
     | active => 1.725 | athlete => 1.9
     end).

Definition spec_calorieTarget (g : Goal) (load : bool) (tdee : number) : number :=
  match g, load with
  | lose_fat, true => tdee - 250
  | lose_fat, false => tdee - 500
  | gain_muscle, _ => tdee + 300
  | maintain, _ => tdee
  end.

Definition spec_proteinFactor (g : Goal) (load : bool) : number :=
  match g, load with
  | lose_fat, true => 2.0
  | lose_fat, false => 1.8
  | gain_muscle, true => 2.2
  | gain_muscle, false => 2.0
  | maintain, true => 1.6
  | maintain, false => 1.4
  end.

Definition spec_adviceMessage (g : Goal) (load : bool) : string :=
  match g, load with
  | lose_fat, true =>
      "Workout detected: Deficit reduced & Protein bumped for recovery."
  | gain_muscle, true => "Great work! Fuel up for growth."
  | _, _ => EmptyString
  end.

(** *** MacroCard: width of the progress bar, in percent *)
Definition progress (amount target : number) : number :=
  Math_min ((amount / target) * 100) 100.

End Dashboard.

(** ** components/EntryForm: client-side scaling *)

Module EntryForm.

Import JS.
Open Scope float_scope.

(** The four assignments to [item] after [item.quantity = newQty]. *)
Definition rescale (item : FoodItem.t) (newQty : number) : FoodItem.t :=
  {| FoodItem.name := FoodItem.name item;
     FoodItem.quantity := newQty;
     FoodItem.unit := FoodItem.unit item;
     FoodItem.calories := Math_round (FoodItem.baseCalories item * newQty);
     FoodItem.protein := Math_round (FoodItem.baseProtein item * newQty * 10) / 10;
     FoodItem.carbs := Math_round (FoodItem.baseCarbs item * newQty * 10) / 10;
     FoodItem.fat := Math_round (FoodItem.baseFat item * newQty * 10) / 10;
     FoodItem.baseCalories := FoodItem.baseCalories item;
     FoodItem.baseProtein := FoodItem.baseProtein item;
     FoodItem.baseCarbs := FoodItem.baseCarbs item;
     FoodItem.baseFat := FoodItem.baseFat item;
     FoodItem.confidence := FoodItem.confidence item;
     FoodItem.notes := FoodItem.notes item |}.

Fixpoint setAt {A : Type} (l : list A) (i : nat) (x : A) : list A :=
  match l, i with
  | [], _ => []
  | _ :: rest, O => x :: rest
  | y :: rest, S j => y :: setAt rest j x
  end.

(** [updateItemQuantity]: the new contents of the [analyzedItems] state.
    Nothing happens while the state is [null]; an index with no item makes
    the first assignment throw before anything is changed.  The items of
    the array are distinct objects (each comes from its own object literal
    or from [JSON.parse]), so assigning to one leaves the others alone. *)
Definition updateItemQuantity (analyzedItems : option (list FoodItem.t))
  (index : nat) (newQty : number) : outcome (option (list FoodItem.t)) :=
  match analyzedItems with
  | None => Returned None
  | Some items =>
      match nth_error items index with
      | None => Thrown "Cannot set properties of undefined (setting 'quantity')"
      | Some item => Returned (Some (setAt items index (rescale item newQty)))
      end
  end.

End EntryForm.

(** ** services/geminiService *)

Module Response.
(** What the wrapper reads off a [fetch] response: the status line, the
    content-type header, and what [response.json()] and [response.text()]
    resolve to. *)
Record t := {
  status : Z;
  contentType : option string;
  json : JS.outcome JS.value;
  text : string
}.
End Response.

Module Estimate.
Record t := { calories : JS.value; note : JS.value }.
End Estimate.

Module GeminiService.

Import JS.

Inductive FetchResult :=
| NetworkError (message : string)
| Responded (response : Response.t).

(** What can be observed of one call from outside. *)
Inductive Event :=
| Fetch
| Sleep (ms : Z).

Definition ok (r : Response.t) : bool :=
  ((200 <=? Response.status r) && (Response.status r <=? 299))%Z.

Section Transport.

(** ECMAScript's ToString, needed only where [data.error] is truthy but is
    not a string. *)
Variable ToString : value -> string.

Definition errorText (v : value) : string :=
  match v with
  | JStr s => s
  | _ => ToString v
  end.

(** The body of the [try] block, given what [fetch] produced. *)
Definition attempt (r : FetchResult) : outcome value :=
  match r with
  | NetworkError message => Thrown message
  | Responded response =>
      let status := Response.status response in
      if ((status =? 429) || (status =? 503))%Z
      then Thrown ("Server is busy (Status " ++ Z_toString status ++ ")")
      else
        let nonJson :=
          let text := Response.text response in
          let errorMessage :=
            if (String.length text <? 200)%nat then text
            else ("Server Error (" ++ Z_toString status ++ "): Check Vercel logs.")%string in
          Thrown errorMessage in
        match Response.contentType response with
        | Some contentType =>
            if negb (String.eqb contentType EmptyString)
               && includes contentType "application/json"
            then
              match Response.json response with
              | Thrown message => Thrown message
              | Returned data =>
                  if negb (ok response)
                  then
                    match get data "error" with
                    | Thrown message => Thrown message
                    | Returned e =>
                        Thrown (errorText (or_else e (JStr "API request failed")))
                    end
                  else Returned data
              end
            else nonJson
        | None => nonJson
        end
  end.

Definition isRateLimit (message : string) : bool :=
  includes message "429" || includes message "503" || includes message "busy".

(** The [for] loop of [callApi], entered with counter [i] and [fuel]
    iterations left before [i < retries] fails; [server i] is what the
    [i]-th [fetch] produces.  Falling out of the loop returns [undefined]. *)
Fixpoint callApiLoop (server : nat -> FetchResult) (retries : nat)
  (fuel : nat) (i : nat) : outcome value * list Event :=
  match fuel with
  | O => (Returned JUndefined, [])
  | S fuel' =>
      match attempt (server i) with
      | Returned data => (Returned data, [Fetch])
      | Thrown message =>
          let isLastAttempt := (i =? retries - 1)%nat in
          if isLastAttempt then (Thrown message, [Fetch])
          else if negb (isRateLimit message) && (0 <? i)%nat
          then (Thrown message, [Fetch])
          else
            let delay := (2 ^ (Z.of_nat i + 1) * 1500)%Z in
            let '(result, events) := callApiLoop server retries fuel' (S i) in
            (result, Fetch :: Sleep delay :: events)
      end
  end.

Definition callApi (server : nat -> FetchResult) (retries : nat)
  : outcome value * list Event :=
  callApiLoop server retries retries 0.

(** *** estimateExerciseCalories *)

(** Property names every object literal inherits from [Object.prototype]. *)
Definition Object_prototype : list string :=
  ["constructor"; "hasOwnProperty"; "isPrototypeOf"; "propertyIsEnumerable";
   "toLocaleString"; "toString"; "valueOf"; "__proto__";
   "__defineGetter__"; "__defineSetter__"; "__lookupGetter__";
   "__lookupSetter__"]%string.

(** What [intensityMultipliers[intensity]] evaluates to: one of the three
    own numbers, an inherited member (a function or the prototype object),
    or [undefined]. *)
Inductive Member :=
| Own (x : number)
| Inherited
| Missing.

Definition intensityMultipliers (intensity : string) : Member :=
  if String.eqb intensity "low" then Own 4
  else if String.eqb intensity "medium" then Own 8
  else if String.eqb intensity "high" then Own 12
  else if existsb (String.eqb intensity) Object_prototype then Inherited
  else Missing.

(** [intensityMultipliers[intensity] || 6], converted by ToNumber where the
    arithmetic uses it: an inherited member is truthy and is not a number. *)
Definition met (intensity : string) : number :=
  match intensityMultipliers intensity with
  | Own x => if negb (is_nan x || is_zero x) then x else 6%float
  | Inherited => nan
  | Missing => 6%float
  end.

Definition offlineEstimate (duration : number) (intensity : string)
  (profile : UserProfile.t) : Estimate.t :=
  let estCalories :=
    Math_round ((met intensity * 3.5 * UserProfile.weightKg profile) / 200 * duration)%float in
  {| Estimate.calories := JNum estCalories;
     Estimate.note := JStr "Offline estimate (API unavailable)." |}.

(** The [name] only travels in the request payload, which the transport
    model does not inspect. *)
Definition estimateExerciseCalories (server : nat -> FetchResult)
  (name : string) (duration : number) (intensity : string)
  (profile : UserProfile.t) : Estimate.t :=
  match fst (callApi server 2) with
  | Returned result =>
      match get result "calories", get result "note" with
      | Returned calories, Returned noteText =>
          {| Estimate.calories := or_else calories (JNum 0%float);
             Estimate.note := or_else noteText (JStr EmptyString) |}
      | _, _ => offlineEstimate duration intensity profile
      end
  | Thrown _ => offlineEstimate duration intensity profile
  end.

End Transport.

End GeminiService.

(** ** App: backup and restore *)

(** The typed records as the objects the program keeps in its state.  An
    optional field that is absent has no property. *)
Module ToJS.

Import JS.
Open Scope string_scope.

Definition optional (key : string) (o : option value) : list (string * value) :=
  match o with
  | Some v => [(key, v)]
  | None => []
  end.

Definition level (l : Level) : value :=
  JStr match l with low => "low" | medium => "medium" | high => "high" end.

Definition gender (g : Gender) : value :=
  JStr match g with male => "male" | female => "female" | other => "other" end.

Definition activityLevel (a : ActivityLevel) : value :=
  JStr match a with
       | sedentary => "sedentary" | light => "light" | moderate => "moderate"
       | active => "active" | athlete => "athlete"
       end.

Definition goal (g : Goal) : value :=
  JStr match g with
       | lose_fat => "lose_fat" | maintain => "maintain"
       | gain_muscle => "gain_muscle"
       end.

Definition entryType (t : EntryType) : value :=
  JStr match t with food => "food" | exercise => "exercise" | note => "note" end.

Definition foodItem (i : FoodItem.t) : value :=
  JObj ([("name", JStr (FoodItem.name i));
         ("quantity", JNum (FoodItem.quantity i));
         ("unit", JStr (FoodItem.unit i));
         ("calories", JNum (FoodItem.calories i));
         ("protein", JNum (FoodItem.protein i));
         ("carbs", JNum (FoodItem.carbs i));
         ("fat", JNum (FoodItem.fat i));
         ("baseCalories", JNum (FoodItem.baseCalories i));
         ("baseProtein", JNum (FoodItem.baseProtein i));
         ("baseCarbs", JNum (FoodItem.baseCarbs i));
         ("baseFat", JNum (FoodItem.baseFat i));
         ("confidence", level (FoodItem.confidence i))]
        ++ optional "notes" (option_map JStr (FoodItem.notes i)))%list.

Definition exerciseItem (e : ExerciseItem.t) : value :=
  JObj [("name", JStr (ExerciseItem.name e));
        ("durationMinutes", JNum (ExerciseItem.durationMinutes e));
        ("caloriesBurned", JNum (ExerciseItem.caloriesBurned e));
        ("intensity", level (ExerciseItem.intensity e))].

(** Timestamps are integral numbers of milliseconds well inside the range
    where every integer is a binary64 value. *)
Definition timestamp (t : Z) : value :=
  JNum (if (t <? 0)%Z then - of_uint63 (Uint63.of_Z (- t))
        else of_uint63 (Uint63.of_Z t))%float.

Definition logEntry (l : LogEntry.t) : value :=
  JObj ([("id", JStr (LogEntry.id l));
         ("timestamp", timestamp (LogEntry.timestamp l));
         ("type", entryType (LogEntry.type l))]
        ++ optional "items"
             (option_map (fun items => JArr (map foodItem items)) (LogEntry.items l))
        ++ optional "exercise" (option_map exerciseItem (LogEntry.exercise l))
        ++ optional "noteContent" (option_map JStr (LogEntry.noteContent l))
        ++ optional "image" (option_map JStr (LogEntry.image l)))%list.

Definition logs (ls : list LogEntry.t) : value := JArr (map logEntry ls).

Definition userProfile (p : UserProfile.t) : value :=
  JObj [("name", JStr (UserProfile.name p));
        ("age", JNum (UserProfile.age p));
        ("heightCm", JNum (UserProfile.heightCm p));
        ("weightKg", JNum (UserProfile.weightKg p));
        ("gender", gender (UserProfile.gender p));
        ("activityLevel", activityLevel (UserProfile.activityLevel p));
        ("goal", goal (UserProfile.goal p));
        ("dietaryPreferences", JStr (UserProfile.dietaryPreferences p))].

End ToJS.

Module AppState.
(** The three pieces of state of [App].  [setProfile] and [setLogs] store
    whatever value they are handed, so the state holds plain values. *)
Record t := {
  profile : JS.value;
  logs : JS.value;
  chatHistory : JS.value
}.
End AppState.

Module App.

Import JS.
Open Scope string_scope.

(** A backup file is represented by what [JSON.parse] makes of its text:
    a syntax error, or the value read. *)
Inductive File :=
| NotJSON (message : string)
| JSONText (v : value).

Definition JSON_parse (content : File) : outcome value :=
  match content with
  | NotJSON message => Thrown message
  | JSONText v => Returned v
  end.

(** The text [JSON.stringify] writes for an object or an array. *)
Definition JSON_stringify (data : value) : File := JSONText (JSON_normalize data).

(** [exportData]: the contents of the downloaded [nutriwise_backup.json]. *)
Definition exportData (st : AppState.t) : File :=
  let data := JObj [("profile", AppState.profile st);
                    ("logs", AppState.logs st)] in
  JSON_stringify data.

(** [importData] with the [onload] handler run to completion: the state
    afterwards, and the text of the [alert] shown, if any.  [file] is the
    file picked in the input element, if one was picked. *)
Definition importData (file : option File) (st : AppState.t)
  : AppState.t * option string :=
  match file with
  | None => (st, None)
  | Some content =>
      let failed := (st, Some "Failed to parse backup file.") in
      let invalid := (st, Some "Invalid backup file format.") in
      match JSON_parse content with
      | Thrown _ => failed
      | Returned data =>
          match get data "profile" with
          | Thrown _ => failed
          | Returned profile =>
              if truthy profile then
                match get data "logs" with
                | Thrown _ => failed
                | Returned logs =>
                    if truthy logs then
                      ({| AppState.profile := profile;
                          AppState.logs := logs;
                          AppState.chatHistory := AppState.chatHistory st |},
                       Some "Data restored successfully!")
                    else invalid
                end
              else invalid
          end
      end
  end.

End App.

(** ** services/geminiService: the other exported calls *)

Module Analysis.
Record t := { items : list JS.value; clarification : JS.value }.
End Analysis.

Module Refined.
Record t := { items : list JS.value; message : JS.value }.
End Refined.

Module Services.

Import JS GeminiService.
Open Scope string_scope.

Section Calls.

Variable ToString : value -> string.

(** ECMAScript's ToNumber on strings, arrays and objects. *)
Variable ToNumberOther : value -> number.

Definition ToNumber (v : value) : number :=
  match v with
  | JUndefined => nan
  | JNull => zero
  | JBool b => if b then one else zero
  | JNum x => x
  | _ => ToNumberOther v
  end.

Variable server : nat -> FetchResult.

(** [v.key] once [v] is known not to be [null] or [undefined]. *)
Definition prop (v : value) (key : string) : value :=
  match get v key with
  | Returned x => x
  | Thrown _ => JUndefined
  end.

(** The callback of [.map] that adds the per-unit base values.  A division
    converts both its operands to numbers, which is a TypeError on a value
    that cannot be converted to text either (see [toString_throws]). *)
Definition withBaseValues (item : value) : outcome value :=
  match get item "quantityAmount" with
  | Thrown message => Thrown message
  | Returned amount =>
      let qty := or_else amount (JNum 1%float) in
      let per (key : string) : value :=
        JNum (ToNumber (prop item key) / ToNumber qty)%float in
      if existsb toString_throws
           [prop item "calories"; qty; prop item "protein";
            prop item "carbs"; prop item "fat"]
      then Thrown "Cannot convert object to primitive value"
      else
      Returned
        (JObj [("name", prop item "name");
               ("quantity", qty);
               ("unit", or_else (prop item "quantityUnit") (JStr "serving"));
               ("calories", prop item "calories");
               ("protein", prop item "protein");
               ("carbs", prop item "carbs");
               ("fat", prop item "fat");
               ("baseCalories", per "calories");
               ("baseProtein", per "protein");
               ("baseCarbs", per "carbs");
               ("baseFat", per "fat");
               ("confidence", prop item "confidence");
               ("notes", prop item "notes")])
  end.

(** [array.map(callback)], stopping at the first element on which the
    callback throws. *)
Fixpoint mapItems (callback : value -> outcome value) (l : list value)
  : outcome (list value) :=
  match l with
  | [] => Returned []
  | x :: rest =>
      match callback x with
      | Thrown message => Thrown message
      | Returned y =>
          match mapItems callback rest with
          | Thrown message => Thrown message
          | Returned ys => Returned (y :: ys)
          end
      end
  end.

(** [(array || []).map(...)], where [source] is the text of the expression
    for [array]: only an array has a [map] to call, and the TypeError
    names the callee as it is written. *)
Definition mapOrEmpty (source : string) (array : value) : outcome (list value) :=
  match or_else array (JArr []) with
  | JArr elems => mapItems withBaseValues elems
  | _ => Thrown ("(" ++ source ++ " || []).map is not a function")
  end.

(** The [try] block of [analyzeImageOrText]. *)
Definition analyze : outcome Analysis.t :=
  match fst (callApi ToString server 3) with
  | Thrown message => Thrown message
  | Returned result =>
      match get result "items" with
      | Thrown message => Thrown message
      | Returned array =>
          match mapOrEmpty "result.items" array with
          | Thrown message => Thrown message
          | Returned items =>
              Returned
                {| Analysis.items := items;
                   Analysis.clarification :=
                     if truthy (prop result "clarificationNeeded")
                     then prop result "clarificationQuestion"
                     else JUndefined |}
          end
      end
  end.

(** [analyzeImageOrText]: the outcome and the alerts shown.  The inputs
    only travel in the request payload. *)
Definition analyzeImageOrText : outcome Analysis.t * list string :=
  match analyze with
  | Returned r => (Returned r, [])
  | Thrown message => (Thrown message, ["Analysis failed: " ++ message])
  end.


(** [getPersonalizedAdvice]: one attempt only. *)
Definition getPersonalizedAdvice : value :=
  match fst (callApi ToString server 1) with
  | Returned result =>
      match get result "text" with
      | Returned text => text
      | Thrown _ =>
          JStr "Could not generate advice right now. Please try again later."
      end
  | Thrown _ =>
      JStr "Could not generate advice right now. Please try again later."
  end.

(** [getInstantFeedback]: one attempt only, and the error is passed on. *)
Definition getInstantFeedback : outcome value :=
  match fst (callApi ToString server 1) with
  | Returned result => get result "text"
  | Thrown message => Thrown message
  end.

(** [chatWithNutritionist]. *)
Definition chatWithNutritionist : value :=
  match fst (callApi ToString server 2) with
  | Returned result =>
      match get result "text" with
      | Returned text => text
      | Thrown message => JStr ("Error connecting to assistant: " ++ message)
      end
  | Thrown message => JStr ("Error connecting to assistant: " ++ message)
  end.

End Calls.

End Services.

(** ** components/EntryForm: saving an entry *)

Module SavedExercise.
(** The exercise entry handed to [onSave].  [caloriesBurned] is whatever
    [calories || 0] evaluated to. *)
Record t := {
  id : string;
  timestamp : Z;
  name : string;
  durationMinutes : JS.number;
  caloriesBurned : JS.value;
  intensity : Level
}.
End SavedExercise.

Module EntryFormSave.

Import JS GeminiService.
Open Scope string_scope.

(** [Number(x) || 0] for a field that holds a number. *)
Definition orZero (x : number) : number :=
  if negb (is_nan x || is_zero x) then x else zero.

Definition sanitize (item : FoodItem.t) : FoodItem.t :=
  {| FoodItem.name := FoodItem.name item;
     FoodItem.quantity := orZero (FoodItem.quantity item);
     FoodItem.unit := FoodItem.unit item;
     FoodItem.calories := orZero (FoodItem.calories item);
     FoodItem.protein := orZero (FoodItem.protein item);
     FoodItem.carbs := orZero (FoodItem.carbs item);
     FoodItem.fat := orZero (FoodItem.fat item);
     FoodItem.baseCalories := orZero (FoodItem.baseCalories item);
     FoodItem.baseProtein := orZero (FoodItem.baseProtein item);
     FoodItem.baseCarbs := orZero (FoodItem.baseCarbs item);
     FoodItem.baseFat := orZero (FoodItem.baseFat item);
     FoodItem.confidence := FoodItem.confidence item;
     FoodItem.notes := FoodItem.notes item |}.

(** [initialEntry ? initialEntry.id : Date.now().toString()] and the same
    for the timestamp; [now] is what that call of [Date.now()] returns. *)
Definition entryId (initialEntry : option LogEntry.t) (now : Z) : string :=
  match initialEntry with
  | Some e => LogEntry.id e
  | None => Z_toString now
  end.

Definition entryTimestamp (initialEntry : option LogEntry.t) (now : Z) : Z :=
  match initialEntry with
  | Some e => LogEntry.timestamp e
  | None => now
  end.

(** [saveFoodLog]: the entry handed to [onSave], if any. *)
Definition saveFoodLog (analyzedItems : option (list FoodItem.t))
  (selectedImage : option string) (initialEntry : option LogEntry.t)
  (now1 now2 : Z) : option LogEntry.t :=
  match analyzedItems with
  | None => None
  | Some items =>
      Some {| LogEntry.id := entryId initialEntry now1;
              LogEntry.timestamp := entryTimestamp initialEntry now2;
              LogEntry.type := food;
              LogEntry.items := Some (map sanitize items);
              LogEntry.exercise := None;
              LogEntry.noteContent := None;
              LogEntry.image :=
                match selectedImage with
                | Some data => if String.eqb data EmptyString then None else Some data
                | None => None
                end |}
  end.

(** [saveNoteLog]. *)
Definition saveNoteLog (textInput : string) (initialEntry : option LogEntry.t)
  (now1 now2 : Z) : LogEntry.t :=
  {| LogEntry.id := entryId initialEntry now1;
     LogEntry.timestamp := entryTimestamp initialEntry now2;
     LogEntry.type := note;
     LogEntry.items := None;
     LogEntry.exercise := None;
     LogEntry.noteContent := Some textInput;
     LogEntry.image := None |}.

Definition getSafeProfile (userProfile : option UserProfile.t) : UserProfile.t :=
  match userProfile with
  | Some profile => profile
  | None =>
      {| UserProfile.name := "Guest";
         UserProfile.age := 30;
         UserProfile.heightCm := 170;
         UserProfile.weightKg := 70;
         UserProfile.gender := female;
         UserProfile.activityLevel := moderate;
         UserProfile.goal := maintain;
         UserProfile.dietaryPreferences := EmptyString |}
  end.

Definition levelName (l : Level) : string :=
  match l with low => "low" | medium => "medium" | high => "high" end.

Section SaveExercise.

Variable ToString : value -> string.

(** [parseInt] on the text of an input field. *)
Variable parseInt : string -> number.

Variable server : nat -> FetchResult.

(** [saveExerciseLog]: the entry handed to [onSave] if any, the alerts
    shown, and what was observable of the remote call.  The estimate
    itself never throws; [calories.toString()] on its result may, and then
    the [catch] falls back to three calories a minute. *)
Definition saveExerciseLog (exName exDuration exCals : string)
  (exIntensity : Level) (userProfile : option UserProfile.t)
  (initialEntry : option LogEntry.t) (now1 now2 : Z)
  : option SavedExercise.t * list string * list Event :=
  if String.eqb exName EmptyString || String.eqb exDuration EmptyString
  then (None, ["Please enter exercise name and duration."], [])
  else
    let calories := parseInt exCals in
    let '(calories, events) :=
      if is_nan calories || (calories =? 0)%float
      then
        let profile := getSafeProfile userProfile in
        let result :=
          estimateExerciseCalories ToString server exName (parseInt exDuration)
            (levelName exIntensity) profile in
        let calories := Estimate.calories result in
        (if toString_throws calories
         then JNum (parseInt exDuration * 3)%float
         else calories,
         snd (callApi ToString server 2))
      else (JNum calories, []) in
    (Some {| SavedExercise.id := entryId initialEntry now1;
             SavedExercise.timestamp := entryTimestamp initialEntry now2;
             SavedExercise.name := exName;
             SavedExercise.durationMinutes := parseInt exDuration;
             SavedExercise.caloriesBurned := or_else calories (JNum 0%float);
             SavedExercise.intensity := exIntensity |},
     [], events).

End SaveExercise.

End EntryFormSave.

(** ** App: the log store and the chat transcript *)

Inductive Role := user | model.

Module ChatMessage.
Record t := {
  id : string;
  role : Role;
  text : JS.value;
  timestamp : Z
}.
End ChatMessage.

Module FeedbackModal.
Record t := {
  isOpen : bool;
  isLoading : bool;
  message : option JS.value
}.
End FeedbackModal.

Module AppHandlers.

Import JS GeminiService.
Open Scope string_scope.

(** [handleDeleteLog]; [confirmed] is the answer to [window.confirm]. *)
Definition handleDeleteLog (confirmed : bool) (id : string)
  (prev : list LogEntry.t) : list LogEntry.t :=
  if confirmed
  then filter (fun log => negb (String.eqb (LogEntry.id log) id)) prev
  else prev.

(** The comparator [(a, b) => b.timestamp - a.timestamp]. *)
Definition byNewest (a b : LogEntry.t) : Z :=
  (LogEntry.timestamp b - LogEntry.timestamp a)%Z.

(** [logs.sort(...).slice(0, 100)]. *)
Definition recentLogs (logs : list LogEntry.t) : list LogEntry.t :=
  firstn 100 (Array_sort byNewest logs).

Section Handlers.

Variable ToString : value -> string.
Variable server : nat -> FetchResult.

(** [handleSaveEntry] run to completion: the log list and the feedback
    modal afterwards.  When a log is being edited the modal is not
    touched. *)
Definition handleSaveEntry (editingLog : option LogEntry.t) (entry : LogEntry.t)
  (prev : list LogEntry.t) (modal : FeedbackModal.t)
  : list LogEntry.t * FeedbackModal.t :=
  match editingLog with
  | Some _ =>
      (map (fun log =>
              if String.eqb (LogEntry.id log) (LogEntry.id entry)
              then entry else log) prev,
       modal)
  | None =>
      (entry :: prev,
       match Services.getInstantFeedback ToString server with
       | Returned message =>
           {| FeedbackModal.isOpen := true;
              FeedbackModal.isLoading := false;
              FeedbackModal.message := Some message |}
       | Thrown _ =>
           {| FeedbackModal.isOpen := false;
              FeedbackModal.isLoading := false;
              FeedbackModal.message := None |}
       end)
  end.

(** [handleSendChatMessage] run to completion: the log array and the
    transcript afterwards.  [sort] reorders the array it is called on, and
    that array is the one held in the [logs] state.  [now1] .. [now4] are
    the four readings of [Date.now()]. *)
Definition handleSendChatMessage (text : string) (logs : list LogEntry.t)
  (chatHistory : list ChatMessage.t) (now1 now2 now3 now4 : Z)
  : list LogEntry.t * list ChatMessage.t :=
  if String.eqb (trim text) EmptyString then (logs, chatHistory)
  else
    let userMsg :=
      {| ChatMessage.id := Z_toString now1; ChatMessage.role := user;
         ChatMessage.text := JStr text; ChatMessage.timestamp := now2 |} in
    let responseText := Services.chatWithNutritionist ToString server in
    let modelMsg :=
      {| ChatMessage.id := Z_toString (now3 + 1); ChatMessage.role := model;
         ChatMessage.text := responseText; ChatMessage.timestamp := now4 |} in
    (Array_sort byNewest logs, (chatHistory ++ [userMsg; modelMsg])%list).

End Handlers.

End AppHandlers.

(** ** api/gemini: model fallback and the error reply *)

Module ApiError.
(** What the handler reads off a caught error: [error.status] and
    [error.response.status] when they are numbers, and [error.message]. *)
Record t := {
  status : option Z;
  responseStatus : option Z;
  message : option string
}.
End ApiError.

Module ApiHandler.

Import JS.
Open Scope string_scope.

Definition CANDIDATE_MODELS : list string :=
  ["gemini-1.5-flash"; "gemini-1.5-flash-002"; "gemini-1.5-flash-001";
   "gemini-1.5-pro"].

Definition messageIncludes (e : ApiError.t) (sub : string) : bool :=
  match ApiError.message e with
  | Some m => negb (String.eqb m EmptyString) && includes m sub
  | None => false
  end.

Definition isModelError (e : ApiError.t) : bool :=
  match ApiError.status e with Some s => (s =? 404)%Z | None => false end
  || messageIncludes e "not found"
  || messageIncludes e "not supported".

Definition allFailed : ApiError.t :=
  {| ApiError.status := None; ApiError.responseStatus := None;
     ApiError.message := Some "All candidate models failed." |}.

(** The [for ... of] loop of [executeWithFallback] over the models still
    to try: the result, and the models the operation was called with. *)
Fixpoint fallbackLoop (operation : string -> value + ApiError.t)
  (models : list string) (lastError : option ApiError.t)
  : (value + ApiError.t) * list string :=
  match models with
  | [] =>
      (inr match lastError with Some e => e | None => allFailed end, [])
  | candidate :: rest =>
      match operation candidate with
      | inl result => (inl result, [candidate])
      | inr error =>
          if isModelError error
          then
            let '(result, tried) := fallbackLoop operation rest (Some error) in
            (result, candidate :: tried)
          else (inr error, [candidate])
      end
  end.

Definition executeWithFallback (operation : string -> value + ApiError.t)
  : (value + ApiError.t) * list string :=
  fallbackLoop operation CANDIDATE_MODELS None.

Definition firstTruthy (a : option Z) (b : option Z) (c : Z) : Z :=
  match a with
  | Some x => if (x =? 0)%Z then
                match b with
                | Some y => if (y =? 0)%Z then c else y
                | None => c
                end
              else x
  | None =>
      match b with
      | Some y => if (y =? 0)%Z then c else y
      | None => c
      end
  end.

(** The status chosen in the handler's [catch]. *)
Definition errorStatus (e : ApiError.t) : Z :=
  let status := firstTruthy (ApiError.status e) (ApiError.responseStatus e) 500 in
  if messageIncludes e "429" || messageIncludes e "Quota"
     || messageIncludes e "quota"
  then 429%Z else status.

Definition errorBody (e : ApiError.t) : value :=
  JObj [("error",
         JStr match ApiError.message e with
              | Some m => if String.eqb m EmptyString
                          then "Internal Server Error" else m
              | None => "Internal Server Error"
              end)].

(** The reply [res.status(status).json({ error: ... })] as the client's
    [fetch] sees it; [text] is the serialised body. *)
Definition errorReply (e : ApiError.t) (text : string) : Response.t :=
  {| Response.status := errorStatus e;
     Response.contentType := Some "application/json; charset=utf-8";
     Response.json := Returned (errorBody e);
     Response.text := text |}.

End ApiHandler.

(** ** Specification-side vocabulary *)

Module Spec.

Import JS.

(** [sub] occurs in [s]. *)
Definition Substring (sub s : string) : Prop :=
  exists pre post, s = (pre ++ sub ++ post)%string.

(** An exercise entry signals training load. *)
Definition signalsLoad (ex : ExerciseItem.t) : Prop :=
  ExerciseItem.intensity ex = high
  \/ Substring "weight"%string (toLowerCase (ExerciseItem.name ex))
  \/ Substring "strength"%string (toLowerCase (ExerciseItem.name ex))
  \/ Substring "lift"%string (toLowerCase (ExerciseItem.name ex)).

(** The items a log entry contributes to the food totals, and the burn it
    contributes to the exercise total. *)
Definition foodItemsOf (log : LogEntry.t) : list FoodItem.t :=
  match LogEntry.type log, LogEntry.items log with
  | food, Some items => items
  | _, _ => []
  end.

Definition burnedOf (log : LogEntry.t) : list number :=
  match LogEntry.type log, LogEntry.exercise log with
  | exercise, Some ex => [ExerciseItem.caloriesBurned ex]
  | _, _ => []
  end.

(** Entries whose timestamp falls in local calendar day [day]. *)
Definition entriesOn (zone : Zone.t) (day : Z) (logs : list LogEntry.t)
  : list LogEntry.t :=
  filter (fun l => (Dashboard.localDay zone (LogEntry.timestamp l) =? day)%Z) logs.

(** Calories of one food entry, and of all food entries of a day. *)
Definition entryCalories (log : LogEntry.t) : list number :=
  match LogEntry.type log, LogEntry.items log with
  | food, Some items => [sum (map FoodItem.calories items)]
  | _, _ => []
  end.

Definition dayFoodCalories (zone : Zone.t) (day : Z) (logs : list LogEntry.t)
  : number :=
  sum (flat_map entryCalories (entriesOn zone day logs)).


(** The example profile of the specification. *)
Definition exampleProfile : UserProfile.t :=
  {| UserProfile.name := "User";
     UserProfile.age := 30;
     UserProfile.heightCm := 175;
     UserProfile.weightKg := 70;
     UserProfile.gender := male;
     UserProfile.activityLevel := moderate;
     UserProfile.goal := maintain;
     UserProfile.dietaryPreferences := "none" |}.

(** The observable course of a call that made [n] attempts, the first of
    them at loop counter [i]: a fetch, then a pause of [3000 * 2^k] ms
    before the fetch at counter [k + 1]. *)
Definition backoffFrom (i n : nat) : list GeminiService.Event :=
  match n with
  | O => []
  | S m =>
      GeminiService.Fetch ::
      flat_map (fun k => [GeminiService.Sleep (3000 * 2 ^ Z.of_nat k);
                          GeminiService.Fetch])
               (seq i m)
  end.

Definition backoffTrace (n : nat) : list GeminiService.Event := backoffFrom 0 n.

(** A rate-limit (429) or overload (503) response. *)
Definition serverBusy (r : GeminiService.FetchResult) : Prop :=
  exists response,
    r = GeminiService.Responded response
    /\ (Response.status response = 429%Z \/ Response.status response = 503%Z).

(** The reply of the endpoint to a request without an action. *)
Definition badRequest : GeminiService.FetchResult :=
  GeminiService.Responded
    {| Response.status := 400;
       Response.contentType := Some "application/json; charset=utf-8"%string;
       Response.json :=
         Returned (JObj [("error", JStr "Missing action in request body")]%string);
       Response.text := EmptyString |}.

(** A 400 reply whose error text happens to contain the word busy. *)
Definition busyWording : GeminiService.FetchResult :=
  GeminiService.Responded
    {| Response.status := 400;
       Response.contentType := Some "application/json; charset=utf-8"%string;
       Response.json :=
         Returned (JObj [("error", JStr "The model is busy thinking")]%string);
       Response.text := EmptyString |}.

Definition busyResponse (status : Z) : GeminiService.FetchResult :=
  GeminiService.Responded
    {| Response.status := status;
       Response.contentType := Some "text/plain"%string;
       Response.json := Thrown "Unexpected token"%string;
       Response.text := "Too Many Requests"%string |}.

(** A backup document with a recognizable shape: reading [profile] and
    [logs] off it yields two truthy values. *)
Definition Recognizable (data : value) : Prop :=
  exists p l,
    get data "profile" = Returned p /\ truthy p = true
    /\ get data "logs" = Returned l /\ truthy l = true.

(** Values that [JSON.stringify] writes without loss. *)
Fixpoint isJSON (v : value) : bool :=
  match v with
  | JUndefined => false
  | JNull | JBool _ | JStr _ => true
  | JNum x => negb (is_nan x || is_infinity x) && negb (Leibniz.eqb x neg_zero)
  | JArr elems => forallb isJSON elems
  | JObj props => forallb (fun '(_, w) => isJSON w) props
  end.

(** *** Sample data *)

Definition oats : FoodItem.t :=
  {| FoodItem.name := "Oats"; FoodItem.quantity := 1; FoodItem.unit := "bowl";
     FoodItem.calories := 150; FoodItem.protein := 5.5;
     FoodItem.carbs := 27; FoodItem.fat := 3;
     FoodItem.baseCalories := 150; FoodItem.baseProtein := 5.5;
     FoodItem.baseCarbs := 27; FoodItem.baseFat := 3;
     FoodItem.confidence := high; FoodItem.notes := None |}.

Definition breakfast : LogEntry.t :=
  {| LogEntry.id := "1000"; LogEntry.timestamp := 1000; LogEntry.type := food;
     LogEntry.items := Some [oats; oats]; LogEntry.exercise := None;
     LogEntry.noteContent := None; LogEntry.image := None |}.

Definition deadlift : LogEntry.t :=
  {| LogEntry.id := "2000"; LogEntry.timestamp := 2000; LogEntry.type := exercise;
     LogEntry.items := None;
     LogEntry.exercise :=
       Some {| ExerciseItem.name := "Deadlift Strength Session";
               ExerciseItem.durationMinutes := 45;
               ExerciseItem.caloriesBurned := 180;
               ExerciseItem.intensity := low |};
     LogEntry.noteContent := None; LogEntry.image := None |}.

Definition diary : LogEntry.t :=
  {| LogEntry.id := "3000"; LogEntry.timestamp := 3000; LogEntry.type := note;
     LogEntry.items := None; LogEntry.exercise := None;
     LogEntry.noteContent := Some "Feeling fine"%string; LogEntry.image := None |}.

Definition sampleLogs : list LogEntry.t := [diary; deadlift; breakfast].

(** Coordinated universal time, and New York around the end of daylight
    saving time in 2023: the clocks went from UTC-4 to UTC-5 on 5 November
    at 06:00 UTC, which made that Sunday 25 hours long. *)
Definition utc : Zone.t := Zones.fixedOffset 0.

Definition newYork : Zone.t :=
  Zones.clockChange 1699164000000 (-14400000) (-18000000).

(** Saturday 4 November 00:30 EDT, Sunday 5 November 00:30 EDT and
    Sunday 5 November 23:30 EST; the dashboard is opened on that Sunday at
    23:45 EST. *)
Definition saturdayMeal : LogEntry.t :=
  {| LogEntry.id := "1699072200000"; LogEntry.timestamp := 1699072200000;
     LogEntry.type := food;
     LogEntry.items := Some [oats]; LogEntry.exercise := None;
     LogEntry.noteContent := None; LogEntry.image := None |}.

Definition earlyMeal : LogEntry.t :=
  {| LogEntry.id := "1699158600000"; LogEntry.timestamp := 1699158600000;
     LogEntry.type := food;
     LogEntry.items := Some [oats]; LogEntry.exercise := None;
     LogEntry.noteContent := None; LogEntry.image := None |}.

Definition earlyDeadlift : LogEntry.t :=
  {| LogEntry.id := "1699158660000"; LogEntry.timestamp := 1699158660000;
     LogEntry.type := exercise;
     LogEntry.items := None;
     LogEntry.exercise :=
       Some {| ExerciseItem.name := "Deadlift";
               ExerciseItem.durationMinutes := 45;
               ExerciseItem.caloriesBurned := 180;
               ExerciseItem.intensity := low |};
     LogEntry.noteContent := None; LogEntry.image := None |}.

Definition lateMeal : LogEntry.t :=
  {| LogEntry.id := "1699245000000"; LogEntry.timestamp := 1699245000000;
     LogEntry.type := food;
     LogEntry.items := Some [oats]; LogEntry.exercise := None;
     LogEntry.noteContent := None; LogEntry.image := None |}.

Definition longSunday : list LogEntry.t :=
  [lateMeal; earlyDeadlift; earlyMeal; saturdayMeal].

Definition sundayEvening : Z := 1699245900000.

(** A clock that reads the same instant every time it is looked at, and
    one that passes midnight (from Sunday 23:59:59.999 EST to Monday
    00:00:00.000) after it was read four times. *)
Definition stopped (now : Z) : nat -> Z := fun _ => now.

Definition overMidnight : nat -> Z :=
  fun i => if (i <? 3)%nat then 1699246800000%Z else 1699246799999%Z.

(** A network on which every request fails, and one that always answers
    with a rate-limit response. *)
Definition offline : nat -> GeminiService.FetchResult :=
  fun _ => GeminiService.NetworkError "Failed to fetch".

Definition alwaysBusy : nat -> GeminiService.FetchResult :=
  fun _ => busyResponse 429.

Definition noToString : value -> string := fun _ => EmptyString.

Definition sampleState : AppState.t :=
  {| AppState.profile := ToJS.userProfile exampleProfile;
     AppState.logs := ToJS.logs sampleLogs;
     AppState.chatHistory := JArr [] |}.

Definition blankState : AppState.t :=
  {| AppState.profile := JObj [];
     AppState.logs := JArr [];
     AppState.chatHistory := JArr [] |}.

End Spec.

(** ** Derived notions *)

Module Derived.

Import JS.

(** Number of requests and total pause in what was observed of a call. *)
Definition fetchCount (events : list GeminiService.Event) : nat :=
  List.length
    (filter (fun e => match e with GeminiService.Fetch => true | _ => false end)
       events).

Fixpoint totalSleep (events : list GeminiService.Event) : Z :=
  match events with
  | [] => 0
  | GeminiService.Sleep ms :: rest => ms + totalSleep rest
  | GeminiService.Fetch :: rest => totalSleep rest
  end.

(** [a] may stand before [b] in a list ordered newest first. *)
Definition newestFirst (a b : LogEntry.t) : Prop :=
  (LogEntry.timestamp b <= LogEntry.timestamp a)%Z.



(** The MET value behind each intensity the form offers. *)
Definition metOf (l : Level) : number :=
  match l with low => 4 | medium => 8 | high => 12 end.

(** What the mapping of analysed items guarantees of an item: a truthy
    quantity and unit, and base values that are the item's values divided
    by that quantity. *)
Definition wellScaled (ToNumberOther : value -> number) (item : value) : Prop :=
  truthy (Services.prop item "quantity") = true
  /\ truthy (Services.prop item "unit") = true
  /\ forall key base,
       In (key, base)
          [("calories", "baseCalories"); ("protein", "baseProtein");
           ("carbs", "baseCarbs"); ("fat", "baseFat")]%string ->
       Services.prop item base
       = JNum (Services.ToNumber ToNumberOther (Services.prop item key)
               / Services.ToNumber ToNumberOther (Services.prop item "quantity"))%float.

(** What the mapping keeps of the item it was given: the name, the amount
    as quantity unless it is falsy (missing, zero, blank), when the
    quantity is 1, and the unit unless it is falsy, when it is "serving". *)
Definition scaledFrom (item out : value) : Prop :=
  Services.prop out "name" = Services.prop item "name"
  /\ Services.prop out "quantity"
     = or_else (Services.prop item "quantityAmount") (JNum 1%float)
  /\ Services.prop out "unit"
     = or_else (Services.prop item "quantityUnit") (JStr "serving").

(** The last element of a list of model names. *)
Definition lastModel (tried : list string) : string := List.last tried EmptyString.

(** *** Sample data *)

Definition lunch : LogEntry.t :=
  {| LogEntry.id := "86400500"; LogEntry.timestamp := 86400500;
     LogEntry.type := food;
     LogEntry.items := Some [Spec.oats]; LogEntry.exercise := None;
     LogEntry.noteContent := None; LogEntry.image := None |}.


Definition analysisReply : GeminiService.FetchResult :=
  GeminiService.Responded
    {| Response.status := 200;
       Response.contentType := Some "application/json; charset=utf-8"%string;
       Response.json :=
         Returned
           (JObj [("items",
                   JArr [JObj [("name", JStr "Rice"); ("quantityAmount", JNum 0);
                               ("calories", JNum 200)];
                         JObj [("name", JStr "Egg"); ("quantityAmount", JNum 2);
                               ("quantityUnit", JStr "piece");
                               ("calories", JNum 140)]]);
                  ("clarificationNeeded", JBool false)]%string);
       Response.text := EmptyString |}.

Definition quotaError : ApiError.t :=
  {| ApiError.status := Some 400%Z; ApiError.responseStatus := None;
     ApiError.message := Some "Quota exceeded for model"%string |}.

Definition notFound : ApiError.t :=
  {| ApiError.status := Some 404%Z; ApiError.responseStatus := None;
     ApiError.message := Some "models/x is not found"%string |}.

(** An upstream on which only the last candidate model exists. *)
Definition onlyPro (candidate : string) : value + ApiError.t :=
  if String.eqb candidate "gemini-1.5-pro" then inl (JStr "ok") else inr notFound.

Definition closedModal : FeedbackModal.t :=
  {| FeedbackModal.isOpen := false; FeedbackModal.isLoading := false;
     FeedbackModal.message := None |}.

Definition noNumber : value -> number := fun _ => nan.




(** A reply whose calories are an object that hides [toString]. *)
Definition oddEstimate : GeminiService.FetchResult :=
  GeminiService.Responded
    {| Response.status := 200;
       Response.contentType := Some "application/json; charset=utf-8"%string;
       Response.json :=
         Returned (JObj [("calories", JObj [("toString", JNull)])]%string);
       Response.text := EmptyString |}.

Definition parseIntSample (s : string) : number :=
  if String.eqb s "45" then 45%float
  else if String.eqb s "300" then 300%float
  else nan.

End Derived.

(* ================================================================== *)
(** * Part II. Properties                                              *)
(* ================================================================== *)

(** ** Numbers *)

Lemma float_sub_add_opp (x y : float) : (x - y = x + (- y))%float.
Proof.
  apply Prim2SF_inj.
  rewrite FloatAxioms.sub_spec, FloatAxioms.add_spec, FloatAxioms.opp_spec.
  unfold SF64sub, SF64add, SFsub, SFadd.
  destruct (Prim2SF x) as [sx| sx | |sx mx ex],
           (Prim2SF y) as [sy| sy | |sy my ey]; simpl; try reflexivity;
    try (destruct sx; reflexivity); try (destruct sy; reflexivity);
    destruct sx, sy; reflexivity.
Qed.

Lemma float_neq (x y : float) : Leibniz.eqb x y = false -> x <> y.
Proof.
  intros H E. apply Leibniz.eqb_spec in E. congruence.
Qed.

(** ** Target Engine *)

Section TargetEngine.

Import JS Dashboard.
Open Scope float_scope.

Lemma bmr_spec (p : UserProfile.t) : bmr p = spec_bmr p.
Proof.
  unfold bmr, spec_bmr.
  destruct (UserProfile.gender p); try reflexivity;
    symmetry; apply (float_sub_add_opp _ 161).
Qed.

Lemma tdee_spec (p : UserProfile.t) : tdee p = spec_tdee p.
Proof.
  unfold tdee, spec_tdee. rewrite bmr_spec.
  destruct (UserProfile.activityLevel p); reflexivity.
Qed.

(** C1. For every profile and training-load flag the targets computed by
    the dashboard are those of the specified pipeline: the Mifflin-St Jeor
    BMR with +5 for male and -161 otherwise, the TDEE rounded from the BMR
    times the activity multiplier, the goal table for calorie target,
    protein factor and advice message, and the rounded protein, fat and
    (floored at zero) carbohydrate targets. *)
Theorem targets_pipeline (p : UserProfile.t) (trainingLoad : bool) :
  let g := UserProfile.goal p in
  let calorieTarget := spec_calorieTarget g trainingLoad (spec_tdee p) in
  let targetProtein :=
    Math_round (UserProfile.weightKg p * spec_proteinFactor g trainingLoad) in
  let targetFat := Math_round (calorieTarget * 0.25 / 9) in
  let targetCarbs :=
    Math_max 0 (Math_round ((calorieTarget - targetProtein * 4 - targetFat * 9) / 4)) in
  bmr p = spec_bmr p /\
  tdee p = spec_tdee p /\
  targets p trainingLoad =
    {| Targets.calorieTarget := calorieTarget;
       Targets.macroTargets :=
         {| MacroTargets.protein := targetProtein;
            MacroTargets.carbs := targetCarbs;
            MacroTargets.fat := targetFat |};
       Targets.adviceMessage := spec_adviceMessage g trainingLoad |}.
Proof.
  cbv zeta. split; [apply bmr_spec|]. split; [apply tdee_spec|].
  unfold targets. rewrite tdee_spec.
  destruct (UserProfile.goal p), trainingLoad; reflexivity.
Qed.

(** C2, as the specification states it, fails: for the example profile
    the BMR is not 1693.75 and the calorie target is not 2625. *)
Lemma example_targets_not_as_stated :
  ~ (bmr Spec.exampleProfile = 1693.75 /\
     tdee Spec.exampleProfile = 2625 /\
     targets Spec.exampleProfile false =
       {| Targets.calorieTarget := 2625;
          Targets.macroTargets :=
            {| MacroTargets.protein := 98;
               MacroTargets.carbs := 394;
               MacroTargets.fat := 73 |};
          Targets.adviceMessage := EmptyString |}).
Proof.
  intros [H _]. revert H. apply float_neq. vm_compute. reflexivity.
Qed.

(** C2, amended.  For the example profile (70 kg, 175 cm, 30 years, male,
    moderate activity, maintain) without training load, the BMR is
    1648.75, the TDEE and the calorie target are 2556, and the macro
    targets are 98 g protein, 71 g fat and 381 g carbohydrate, with no
    advice message. *)
Theorem example_targets :
  bmr Spec.exampleProfile = 1648.75 /\
  tdee Spec.exampleProfile = 2556 /\
  targets Spec.exampleProfile false =
    {| Targets.calorieTarget := 2556;
       Targets.macroTargets :=
         {| MacroTargets.protein := 98;
            MacroTargets.carbs := 381;
            MacroTargets.fat := 71 |};
       Targets.adviceMessage := EmptyString |}.
Proof.
  repeat split; vm_compute; reflexivity.
Qed.

End TargetEngine.

(** ** Calendar days *)

Section CalendarFacts.

Open Scope Z_scope.

(** The two kinds of zone obey the laws: a fixed offset always, a clock
    change when the clocks are put back (no wall-clock reading is skipped). *)
Lemma fixedOffset_laws (tzOffset : Z) : Zones.Laws (Zones.fixedOffset tzOffset).
Proof.
  unfold Zones.Laws, Zones.Days, Zones.DaysBack, Zones.fixedOffset,
    Zones.msPerDay; cbn [Zone.localDay Zone.startOfDay Zone.subDays].
  split; [split|].
  - intro t.
    replace ((t + tzOffset) / 86400000 * 86400000 - tzOffset + tzOffset)
      with ((t + tzOffset) / 86400000 * 86400000) by lia.
    apply Z.div_mul. lia.
  - intros a b E. rewrite E. reflexivity.
  - intros t n.
    replace (t - n * 86400000 + tzOffset)
      with (t + tzOffset + (- n) * 86400000) by lia.
    rewrite Z.div_add by lia. lia.
Qed.

Lemma wallClock_instantOf (change before after wall : Z) :
  after <= before ->
  Zones.wallClock change before after
    (Zones.instantOf change before after wall) = wall.
Proof.
  intro H. unfold Zones.wallClock, Zones.instantOf, Zones.offsetAt.
  destruct (Z.ltb_spec (wall - before) change) as [L|G].
  - destruct (Z.ltb_spec (wall - before) change); lia.
  - destruct (Z.leb_spec change (wall - after)); [|lia].
    destruct (Z.ltb_spec (wall - after) change); lia.
Qed.

Lemma clockChange_laws (change before after : Z) :
  after <= before -> Zones.Laws (Zones.clockChange change before after).
Proof.
  intro H.
  unfold Zones.Laws, Zones.Days, Zones.DaysBack, Zones.clockChange;
    cbn [Zone.localDay Zone.startOfDay Zone.subDays].
  split; [split|].
  - intro t. rewrite wallClock_instantOf by exact H.
    apply Z.div_mul. unfold Zones.msPerDay. lia.
  - intros a b E. rewrite E. reflexivity.
  - intros t n. rewrite wallClock_instantOf by exact H.
    replace (Zones.wallClock change before after t - n * Zones.msPerDay)
      with (Zones.wallClock change before after t + (- n) * Zones.msPerDay)
      by lia.
    rewrite Z.div_add by (unfold Zones.msPerDay; lia). lia.
Qed.

Lemma utc_laws : Zones.Laws Spec.utc.
Proof. apply fixedOffset_laws. Qed.

Lemma newYork_laws : Zones.Laws Spec.newYork.
Proof. apply clockChange_laws. lia. Qed.

Variable zone : Zone.t.
Hypothesis days : Zones.Days zone.

Import Dashboard.

Lemma localDay_startOfDay (t : Z) :
  localDay zone (startOfDay zone t) = localDay zone t.
Proof. unfold startOfDay, localDay. apply (proj1 days). Qed.

Lemma isSameDay_localDay (a b : Z) :
  isSameDay zone a b = (localDay zone a =? localDay zone b)%Z.
Proof.
  unfold isSameDay.
  destruct (Z.eqb_spec (localDay zone a) (localDay zone b)) as [E|N].
  - unfold startOfDay. rewrite (proj2 days a b E). apply Z.eqb_refl.
  - apply Z.eqb_neq. intro E. apply N.
    rewrite <- (localDay_startOfDay a), <- (localDay_startOfDay b), E.
    reflexivity.
Qed.

Lemma localDay_subDays (back : Zones.DaysBack zone) (t amount : Z) :
  localDay zone (subDays zone t amount) = (localDay zone t - amount)%Z.
Proof. unfold subDays, localDay. apply back. Qed.

Lemma todayLogs_entriesOn (logs : list LogEntry.t) (now : Z) :
  todayLogs zone logs now
  = Spec.entriesOn zone (localDay zone now) logs.
Proof.
  unfold todayLogs, Spec.entriesOn. apply filter_ext. intro l.
  rewrite isSameDay_localDay, localDay_startOfDay. reflexivity.
Qed.

End CalendarFacts.

(** ** Daily Aggregator *)

Section DailyAggregator.

Variable zone : Zone.t.
Hypothesis days : Zones.Days zone.

Import JS Dashboard.
Open Scope float_scope.

Lemma fold_addItem (items : list FoodItem.t) (acc : Totals.t) :
  fold_left addItem items acc =
  {| Totals.calories :=
       fold_left add (map FoodItem.calories items) (Totals.calories acc);
     Totals.protein :=
       fold_left add (map FoodItem.protein items) (Totals.protein acc);
     Totals.carbs :=
       fold_left add (map FoodItem.carbs items) (Totals.carbs acc);
     Totals.fat :=
       fold_left add (map FoodItem.fat items) (Totals.fat acc);
     Totals.burned := Totals.burned acc |}.
Proof.
  revert acc. induction items as [|item items IH]; intro acc.
  - destruct acc; reflexivity.
  - simpl. rewrite IH. reflexivity.
Qed.

Lemma addLog_spec (acc : Totals.t) (log : LogEntry.t) :
  addLog acc log =
  {| Totals.calories :=
       fold_left add (map FoodItem.calories (Spec.foodItemsOf log)) (Totals.calories acc);
     Totals.protein :=
       fold_left add (map FoodItem.protein (Spec.foodItemsOf log)) (Totals.protein acc);
     Totals.carbs :=
       fold_left add (map FoodItem.carbs (Spec.foodItemsOf log)) (Totals.carbs acc);
     Totals.fat :=
       fold_left add (map FoodItem.fat (Spec.foodItemsOf log)) (Totals.fat acc);
     Totals.burned := fold_left add (Spec.burnedOf log) (Totals.burned acc) |}.
Proof.
  unfold addLog, Spec.foodItemsOf, Spec.burnedOf.
  destruct (LogEntry.type log), (LogEntry.items log) as [items|],
    (LogEntry.exercise log) as [ex|];
    try rewrite fold_addItem; destruct acc; reflexivity.
Qed.

Lemma fold_addLog (logs : list LogEntry.t) (acc : Totals.t) :
  fold_left addLog logs acc =
  {| Totals.calories :=
       fold_left add (map FoodItem.calories (flat_map Spec.foodItemsOf logs))
         (Totals.calories acc);
     Totals.protein :=
       fold_left add (map FoodItem.protein (flat_map Spec.foodItemsOf logs))
         (Totals.protein acc);
     Totals.carbs :=
       fold_left add (map FoodItem.carbs (flat_map Spec.foodItemsOf logs))
         (Totals.carbs acc);
     Totals.fat :=
       fold_left add (map FoodItem.fat (flat_map Spec.foodItemsOf logs))
         (Totals.fat acc);
     Totals.burned :=
       fold_left add (flat_map Spec.burnedOf logs) (Totals.burned acc) |}.
Proof.
  revert acc. induction logs as [|log logs IH]; intro acc.
  - destruct acc; reflexivity.
  - simpl fold_left at 1. rewrite IH, addLog_spec. simpl.
    rewrite !map_app, !fold_left_app. reflexivity.
Qed.

(** C3. For every log store and every day, in whatever time zone the
    device keeps its calendar, today's totals are the sums, over the
    entries whose timestamp falls in that local calendar day and in log
    order, of the calories, protein, carbs and fat of the items of food
    entries and of the calories burned of exercise entries; note entries
    contribute nothing, and a day without matching entries yields the
    all-zero totals.  A day is as long as the zone makes it, 25 hours
    included. *)
Theorem todayTotals_sums (logs : list LogEntry.t) (now : Z) :
  let today := Spec.entriesOn zone (localDay zone now) logs in
  let items := flat_map Spec.foodItemsOf today in
  todayTotals zone logs now =
    {| Totals.calories := sum (map FoodItem.calories items);
       Totals.protein := sum (map FoodItem.protein items);
       Totals.carbs := sum (map FoodItem.carbs items);
       Totals.fat := sum (map FoodItem.fat items);
       Totals.burned := sum (flat_map Spec.burnedOf today) |}
  /\ (forall l, In l today -> LogEntry.type l = note ->
        Spec.foodItemsOf l = [] /\ Spec.burnedOf l = [])
  /\ (today = [] -> todayTotals zone logs now = zeroTotals).
Proof.
  cbv zeta. unfold todayTotals. rewrite (todayLogs_entriesOn zone days).
  split; [|split].
  - rewrite fold_addLog. reflexivity.
  - intros l _ T. unfold Spec.foodItemsOf, Spec.burnedOf. rewrite T. split; reflexivity.
  - intros E. rewrite E. reflexivity.
Qed.

End DailyAggregator.

(** ** Strings *)

Section Strings.

Import JS.
Open Scope string_scope.

Lemma startsWith_spec (sub s : string) :
  startsWith s sub = true <-> exists post, s = sub ++ post.
Proof.
  revert s. induction sub as [|b sub IH]; intro s.
  - destruct s; simpl; split; eauto.
  - destruct s as [|a s]; simpl.
    + split; [discriminate | intros [post E]; discriminate].
    + rewrite andb_true_iff, Ascii.eqb_eq, IH. split.
      * intros [-> [post ->]]. eauto.
      * intros [post E]. injection E as -> ->. eauto.
Qed.

Lemma includes_spec (sub s : string) :
  includes s sub = true <-> Spec.Substring sub s.
Proof.
  unfold Spec.Substring. induction s as [|a s IH].
  - simpl. rewrite orb_false_r.
    destruct sub as [|b sub]; simpl; split; intro H; try discriminate.
    + exists EmptyString, EmptyString. reflexivity.
    + reflexivity.
    + destruct H as [[|c pre] [post E]]; discriminate.
  - cbn [includes]. rewrite orb_true_iff, IH, startsWith_spec. split.
    + intros [[post E] | [pre [post E]]].
      * exists EmptyString, post. exact E.
      * exists (String a pre), post. simpl. congruence.
    + intros [[|c pre] [post E]].
      * left. exists post. exact E.
      * right. simpl in E. injection E as -> ->. eauto.
Qed.

End Strings.

(** ** Training-Load Detector *)

Section TrainingLoad.

Variable zone : Zone.t.
Hypothesis days : Zones.Days zone.

Import JS Dashboard.
Open Scope string_scope.

Lemma isStrength_spec (l : LogEntry.t) :
  isStrength l = true <->
  exists ex, LogEntry.type l = exercise /\ LogEntry.exercise l = Some ex
             /\ Spec.signalsLoad ex.
Proof.
  unfold isStrength, Spec.signalsLoad.
  destruct (LogEntry.type l) eqn:T;
    try (split; [discriminate | intros (ex & D & _); discriminate]).
  destruct (LogEntry.exercise l) as [ex|] eqn:X;
    [| split; [discriminate | intros (ex & _ & D & _); discriminate]].
  rewrite !orb_true_iff, !includes_spec. split.
  - intros H. exists ex. split; [reflexivity|]. split; [reflexivity|].
    destruct H as [[[H|H]|H]|H]; auto.
    left. destruct (ExerciseItem.intensity ex); try discriminate; reflexivity.
  - intros (ex' & _ & E & H). injection E as <-.
    destruct H as [H|[H|[H|H]]]; auto.
    left; left; left. rewrite H. reflexivity.
Qed.

(** C4. In whatever time zone the device keeps its calendar, the
    training-load signal is true exactly when some exercise entry of the
    local day has intensity high or a lower-cased name containing
    "weight", "strength" or "lift"; an entry of the day named "Deadlift
    Strength Session" with intensity low raises it. *)
Theorem hasStrength_iff (logs : list LogEntry.t) (now : Z) :
  (hasStrength zone logs now = true <->
   exists l ex,
     In l logs
     /\ localDay zone (LogEntry.timestamp l) = localDay zone now
     /\ LogEntry.type l = exercise
     /\ LogEntry.exercise l = Some ex
     /\ Spec.signalsLoad ex)
  /\ (forall l ex,
        In l logs ->
        localDay zone (LogEntry.timestamp l) = localDay zone now ->
        LogEntry.type l = exercise ->
        LogEntry.exercise l = Some ex ->
        ExerciseItem.name ex = "Deadlift Strength Session" ->
        ExerciseItem.intensity ex = low ->
        hasStrength zone logs now = true).
Proof.
  assert (main : hasStrength zone logs now = true <->
   exists l ex,
     In l logs
     /\ localDay zone (LogEntry.timestamp l) = localDay zone now
     /\ LogEntry.type l = exercise
     /\ LogEntry.exercise l = Some ex
     /\ Spec.signalsLoad ex).
  { unfold hasStrength. rewrite (todayLogs_entriesOn zone days), existsb_exists.
    unfold Spec.entriesOn. split.
    - intros (l & I & S). apply filter_In in I as [I D].
      apply Z.eqb_eq in D. apply isStrength_spec in S as (ex & T & X & L).
      exists l, ex. auto.
    - intros (l & ex & I & D & T & X & L). exists l. split.
      + apply filter_In. split; [exact I | apply Z.eqb_eq; exact D].
      + apply isStrength_spec. exists ex. auto. }
  split; [exact main|].
  intros l ex I D T X N _. apply main. exists l, ex.
  repeat (split; [assumption|]).
  right; right; left. rewrite N. apply includes_spec. vm_compute. reflexivity.
Qed.

End TrainingLoad.

(** ** Quantity rescaling *)

Section Rescaling.

Import JS EntryForm.
Open Scope float_scope.

Lemma setAt_length {A : Type} (l : list A) (i : nat) (x : A) :
  List.length (setAt l i x) = List.length l.
Proof.
  revert i. induction l as [|y l IH]; intros [|i]; simpl; auto.
Qed.

Lemma setAt_same {A : Type} (l : list A) (i : nat) (x y : A) :
  nth_error l i = Some y -> nth_error (setAt l i x) i = Some x.
Proof.
  revert i. induction l as [|z l IH]; intros [|i]; simpl; try discriminate; auto.
Qed.

Lemma setAt_other {A : Type} (l : list A) (i j : nat) (x : A) :
  i <> j -> nth_error (setAt l i x) j = nth_error l j.
Proof.
  revert i j. induction l as [|z l IH]; intros [|i] [|j] N; simpl; auto.
  contradiction.
Qed.

(** C5. Setting the quantity of the item at [index] to [q] leaves that
    item with quantity [q], calories [round (baseCalories * q)] and
    protein, carbs and fat [round (base * q * 10) / 10]; its base values
    and every other item stay as they were. *)
Theorem updateItemQuantity_scales
  (items : list FoodItem.t) (index : nat) (q : number) (old : FoodItem.t) :
  nth_error items index = Some old ->
  exists items' item,
    updateItemQuantity (Some items) index q = Returned (Some items')
    /\ nth_error items' index = Some item
    /\ FoodItem.quantity item = q
    /\ FoodItem.calories item = Math_round (FoodItem.baseCalories item * q)
    /\ FoodItem.protein item = Math_round (FoodItem.baseProtein item * q * 10) / 10
    /\ FoodItem.carbs item = Math_round (FoodItem.baseCarbs item * q * 10) / 10
    /\ FoodItem.fat item = Math_round (FoodItem.baseFat item * q * 10) / 10
    /\ (FoodItem.baseCalories item, FoodItem.baseProtein item,
        FoodItem.baseCarbs item, FoodItem.baseFat item)
       = (FoodItem.baseCalories old, FoodItem.baseProtein old,
          FoodItem.baseCarbs old, FoodItem.baseFat old)
    /\ List.length items' = List.length items
    /\ (forall j, j <> index -> nth_error items' j = nth_error items j).
Proof.
  intros H. exists (setAt items index (rescale old q)), (rescale old q).
  unfold updateItemQuantity. rewrite H.
  split; [reflexivity|]. split; [eapply setAt_same; eassumption|].
  repeat (split; [reflexivity|]).
  split; [apply setAt_length|].
  intros j N. apply setAt_other. congruence.
Qed.

End Rescaling.

(** ** Trend Window *)

Section TrendWindow.

Variable zone : Zone.t.
Hypothesis laws : Zones.Laws zone.

Import JS Dashboard.
Open Scope float_scope.

Lemma fold_item_calories (items : list FoodItem.t) (acc : number) :
  fold_left (fun s item => s + FoodItem.calories item) items acc
  = fold_left add (map FoodItem.calories items) acc.
Proof.
  revert acc. induction items as [|i items IH]; intro acc; simpl; auto.
Qed.

Lemma fold_addFoodCalories (logs : list LogEntry.t) (acc : number) :
  fold_left addFoodCalories logs acc
  = fold_left add (flat_map Spec.entryCalories logs) acc.
Proof.
  revert acc. induction logs as [|l logs IH]; intro acc; [reflexivity|].
  simpl. rewrite IH, fold_left_app. f_equal.
  unfold addFoodCalories, Spec.entryCalories.
  destruct (LogEntry.type l), (LogEntry.items l); try reflexivity.
  simpl. rewrite fold_item_calories. reflexivity.
Qed.

Lemma chartPoint_spec (logs : list LogEntry.t) (now : Z) (i : nat) :
  chartPoint zone logs now i =
  {| ChartPoint.name := weekdayOfDay (localDay zone now - Z.of_nat i);
     ChartPoint.calories :=
       Spec.dayFoodCalories zone (localDay zone now - Z.of_nat i) logs |}.
Proof.
  unfold chartPoint, format_EEE, Spec.dayFoodCalories, Spec.entriesOn, sum.
  rewrite fold_addFoodCalories, (localDay_subDays zone (proj2 laws)). do 3 f_equal.
  apply filter_ext. intro l. rewrite (isSameDay_localDay zone (proj1 laws)), (localDay_subDays zone (proj2 laws)).
  reflexivity.
Qed.






End TrendWindow.

(** ** Estimator transport *)

Section Retry.

Import JS GeminiService.
Open Scope string_scope.
Open Scope nat_scope.

Variable ToString : value -> string.
Variable server : nat -> FetchResult.
Variable retries : nat.

Lemma backoffFrom_step (i m : nat) :
  Spec.backoffFrom i (S (S m)) =
  Fetch :: Sleep (2 ^ (Z.of_nat i + 1) * 1500) :: Spec.backoffFrom (S i) (S m).
Proof.
  unfold Spec.backoffFrom. cbn [seq flat_map app]. do 2 f_equal.
  rewrite Z.pow_add_r by lia. f_equal. change (2 ^ 1)%Z with 2%Z. lia.
Qed.

Lemma busy_is_rate_limit (r : FetchResult) :
  Spec.serverBusy r ->
  exists message, attempt ToString r = Thrown message
                  /\ isRateLimit message = true.
Proof.
  intros (response & -> & [St | St]); unfold attempt; rewrite St; simpl;
    eexists; (split; [reflexivity|]); vm_compute; reflexivity.
Qed.

Lemma isRateLimit_spec (message : string) :
  isRateLimit message = true <->
  Spec.Substring "429" message \/ Spec.Substring "503" message
  \/ Spec.Substring "busy" message.
Proof.
  unfold isRateLimit. rewrite !orb_true_iff, !includes_spec. tauto.
Qed.

Lemma single_attempt_policy (fuel i : nat) (result : outcome value) :
  attempt ToString (server i) = result ->
  (1 < S fuel ->
    (exists data, result = Returned data)
    \/ (exists message, result = Thrown message
                        /\ isRateLimit message = false /\ 0 < i)) ->
  exists n,
    n <= S fuel
    /\ snd (result, [Fetch]) = Spec.backoffFrom i n
    /\ (S fuel = 0 -> fst (result, [Fetch]) = Returned JUndefined)
    /\ (0 < S fuel ->
        0 < n /\ fst (result, [Fetch]) = attempt ToString (server (i + n - 1)))
    /\ (forall j, i <= j -> j + 1 < i + n ->
        exists message,
          attempt ToString (server j) = Thrown message
          /\ (isRateLimit message = true \/ j = 0))
    /\ (n < S fuel ->
        (exists data, attempt ToString (server (i + n - 1)) = Returned data)
        \/ (exists message,
              attempt ToString (server (i + n - 1)) = Thrown message
              /\ isRateLimit message = false /\ 0 < i + n - 1)).
Proof.
  intros A early. exists 1. replace (i + 1 - 1) with i by lia.
  rewrite A. simpl.
  split; [lia|]. split; [reflexivity|]. split; [discriminate|].
  split; [split; [lia | reflexivity]|]. split; [intros; lia|].
  exact early.
Qed.

Lemma callApiLoop_policy (fuel i : nat) :
  i + fuel = retries ->
  exists n,
    n <= fuel
    /\ snd (callApiLoop ToString server retries fuel i) = Spec.backoffFrom i n
    /\ (fuel = 0 ->
        fst (callApiLoop ToString server retries fuel i) = Returned JUndefined)
    /\ (0 < fuel ->
        0 < n /\
        fst (callApiLoop ToString server retries fuel i)
        = attempt ToString (server (i + n - 1)))
    /\ (forall j, i <= j -> j + 1 < i + n ->
        exists message,
          attempt ToString (server j) = Thrown message
          /\ (isRateLimit message = true \/ j = 0))
    /\ (n < fuel ->
        (exists data, attempt ToString (server (i + n - 1)) = Returned data)
        \/ (exists message,
              attempt ToString (server (i + n - 1)) = Thrown message
              /\ isRateLimit message = false /\ 0 < i + n - 1)).
Proof.
  revert i. induction fuel as [|fuel IH]; intros i E.
  - exists 0. simpl.
    split; [lia|]. split; [reflexivity|]. split; [reflexivity|].
    split; [lia|]. split; intros; lia.
  - cbn [callApiLoop].
    destruct (attempt ToString (server i)) as [data|message] eqn:A.
    + apply single_attempt_policy; [exact A|]. intros _. left. eauto.
    + destruct (i =? retries - 1) eqn:L.
      { apply Nat.eqb_eq in L. apply single_attempt_policy; [exact A|].
        intros; lia. }
      apply Nat.eqb_neq in L.
      destruct (negb (isRateLimit message) && (0 <? i)) eqn:G.
      { apply andb_true_iff in G as [G1 G2].
        apply negb_true_iff in G1. apply Nat.ltb_lt in G2.
        apply single_attempt_policy; [exact A|]. intros _. right. eauto. }
      destruct (IH (S i) ltac:(lia)) as (n & B & T & _ & R & P & Q).
      destruct R as [N R]; [lia|].
      destruct (callApiLoop ToString server retries fuel (S i)) as [result events].
      cbn [fst snd] in *.
      exists (S n). replace (i + S n - 1) with (S i + n - 1) by lia.
      split; [lia|]. split.
      { destruct n as [|m]; [lia|]. rewrite backoffFrom_step. congruence. }
      split; [discriminate|]. split; [split; [lia | exact R]|]. split.
      * intros j Lo Hi. destruct (Nat.eq_dec j i) as [->|Nj].
        -- exists message. split; [exact A|].
           apply andb_false_iff in G as [G|G].
           ++ left. apply negb_false_iff in G. exact G.
           ++ right. apply Nat.ltb_ge in G. lia.
        -- apply P; lia.
      * intros Lt. apply Q. lia.
Qed.

(** C7 as stated fails: the endpoint's 400 reply is not a server-busy
    failure, yet the first attempt that receives it is followed by a pause
    of three seconds and a second fetch. *)
Lemma callApi_retries_first_failure :
  attempt (fun _ => EmptyString) Spec.badRequest
    = Thrown "Missing action in request body"
  /\ isRateLimit "Missing action in request body" = false
  /\ snd (callApi (fun _ => EmptyString) (fun _ => Spec.badRequest) 3)
     = [Fetch; Sleep 3000; Fetch].
Proof.
  repeat split; vm_compute; reflexivity.
Qed.

(** C7, amended.  A call with [retries] permitted attempts makes some
    number [n <= retries] of fetches, pausing [3000 * 2^k] ms (3 s, 6 s,
    ...) after the failed attempt number [k] and ending with the outcome
    of its last attempt.  An attempt is retried only if it failed and
    either its error message reads as server-busy or it was the first
    attempt; the call stops before the permitted attempts are used up only
    on success or on an error of a second or later attempt whose message
    does not read as server-busy.  A message reads as server-busy exactly
    when it contains "429", "503" or "busy": the message of every 429 and
    503 response does, and so may that of any other error. *)
Theorem callApi_retry_policy :
  exists n,
    n <= retries
    /\ snd (callApi ToString server retries) = Spec.backoffTrace n
    /\ (retries = 0 ->
        fst (callApi ToString server retries) = Returned JUndefined)
    /\ (0 < retries ->
        0 < n /\
        fst (callApi ToString server retries) = attempt ToString (server (n - 1)))
    /\ (forall j, j + 1 < n ->
        exists message,
          attempt ToString (server j) = Thrown message
          /\ (isRateLimit message = true \/ j = 0))
    /\ (n < retries ->
        (exists data, attempt ToString (server (n - 1)) = Returned data)
        \/ (exists message,
              attempt ToString (server (n - 1)) = Thrown message
              /\ isRateLimit message = false /\ 0 < n - 1))
    /\ (forall r, Spec.serverBusy r ->
        exists message,
          attempt ToString r = Thrown message /\ isRateLimit message = true)
    /\ (forall message,
        isRateLimit message = true <->
        Spec.Substring "429" message \/ Spec.Substring "503" message
        \/ Spec.Substring "busy" message).
Proof.
  destruct (callApiLoop_policy retries 0 eq_refl) as (n & B & T & U & R & P & Q).
  exists n. unfold callApi, Spec.backoffTrace.
  repeat (split; [assumption|]). split.
  - intros j Hj. apply P; lia.
  - split; [exact Q|]. split; [exact busy_is_rate_limit|].
    exact isRateLimit_spec.
Qed.

End Retry.

(** ** Backup and restore *)

Section Backup.

Import JS App.
Open Scope string_scope.

(** C8. Importing a document: when its text does not parse, or reading
    [profile] and [logs] off the parsed value does not give two truthy
    values, the whole state is left as it was and an error alert is shown;
    when it does, exactly the [profile] and [logs] found in the document
    replace the stored ones, the chat transcript is kept, and success is
    announced. *)
Theorem importData_policy (content : File) (st : AppState.t) :
  (forall data p l,
     JSON_parse content = Returned data ->
     get data "profile" = Returned p -> truthy p = true ->
     get data "logs" = Returned l -> truthy l = true ->
     importData (Some content) st =
       ({| AppState.profile := p;
           AppState.logs := l;
           AppState.chatHistory := AppState.chatHistory st |},
        Some "Data restored successfully!"))
  /\ ((forall data, JSON_parse content = Returned data -> ~ Spec.Recognizable data) ->
      fst (importData (Some content) st) = st
      /\ (snd (importData (Some content) st) = Some "Failed to parse backup file."
          \/ snd (importData (Some content) st) = Some "Invalid backup file format.")).
Proof.
  split.
  - intros data p l P Gp Tp Gl Tl. unfold importData.
    rewrite P, Gp, Tp, Gl, Tl. reflexivity.
  - intros U. unfold importData.
    destruct (JSON_parse content) as [data|m] eqn:P; [|simpl; auto].
    specialize (U data eq_refl).
    destruct (get data "profile") as [p|m] eqn:Gp; [|simpl; auto].
    destruct (truthy p) eqn:Tp; [|simpl; auto].
    destruct (get data "logs") as [l|m] eqn:Gl; [|simpl; auto].
    destruct (truthy l) eqn:Tl; [|simpl; auto].
    exfalso. apply U. exists p, l. auto.
Qed.

Lemma value_nested_ind (P : value -> Prop) :
  P JUndefined -> P JNull -> (forall b, P (JBool b)) ->
  (forall x, P (JNum x)) -> (forall s, P (JStr s)) ->
  (forall elems, Forall P elems -> P (JArr elems)) ->
  (forall props, Forall (fun kv => P (snd kv)) props -> P (JObj props)) ->
  forall v, P v.
Proof.
  intros HU HN HB HX HS HA HO. fix IH 1. intros [ | |b|x|s|elems|props].
  - exact HU.
  - exact HN.
  - apply HB.
  - apply HX.
  - apply HS.
  - apply HA. induction elems as [|e elems IHe]; constructor;
      [apply IH | exact IHe].
  - apply HO. induction props as [|[k w] props IHp]; constructor;
      [apply IH | exact IHp].
Qed.

Lemma normalize_defined (v : value) : JSON_normalize v <> JUndefined.
Proof.
  destruct v; simpl; try discriminate.
  destruct (is_nan x || is_infinity x); [discriminate|].
  destruct (Leibniz.eqb x neg_zero); discriminate.
Qed.

Lemma normalize_number_idempotent (x : number) :
  JSON_normalize (JSON_normalize (JNum x)) = JSON_normalize (JNum x).
Proof.
  simpl. destruct (is_nan x || is_infinity x) eqn:F; [reflexivity|].
  destruct (Leibniz.eqb x neg_zero) eqn:Z; [reflexivity|].
  simpl. rewrite F, Z. reflexivity.
Qed.

Lemma normalize_idempotent (v : value) :
  JSON_normalize (JSON_normalize v) = JSON_normalize v.
Proof.
  induction v as [ | |b|x|s|elems IH|props IH] using value_nested_ind;
    try reflexivity.
  - apply normalize_number_idempotent.
  - simpl. f_equal. rewrite map_map. apply map_ext_Forall. exact IH.
  - simpl. f_equal. induction IH as [|[k w] props Hw Hprops IHprops];
      [reflexivity|].
    simpl in Hw.
    assert (step : forall rest rest',
      (fix go (ps : list (string * value)) : list (string * value) :=
         match ps with
         | [] => []
         | (k, JUndefined) :: rest => go rest
         | (k, w) :: rest => (k, JSON_normalize w) :: go rest
         end) ((k, JSON_normalize w) :: rest) = (k, JSON_normalize w) :: rest' <->
      (fix go (ps : list (string * value)) : list (string * value) :=
         match ps with
         | [] => []
         | (k, JUndefined) :: rest => go rest
         | (k, w) :: rest => (k, JSON_normalize w) :: go rest
         end) rest = rest').
    { intros rest rest'. pose proof (normalize_defined w) as D.
      rewrite <- Hw at 2.
      destruct (JSON_normalize w); try contradiction;
        (split; [intros H; injection H; auto | intros ->; reflexivity]). }
    destruct w; try exact IHprops; apply step; exact IHprops.
Qed.

Lemma normalize_isJSON (v : value) :
  Spec.isJSON v = true -> JSON_normalize v = v.
Proof.
  induction v as [ | |b|x|s|elems IH|props IH] using value_nested_ind;
    try reflexivity; try discriminate.
  - simpl. intros H. apply andb_true_iff in H as [F Z].
    apply negb_true_iff in F, Z. rewrite F, Z. reflexivity.
  - simpl. intros H. f_equal. rewrite forallb_forall in H.
    rewrite Forall_forall in IH. rewrite <- (map_id elems) at 2.
    apply map_ext_in. auto.
  - simpl. intros H. f_equal.
    induction IH as [|[k w] props Hw Hprops IHprops]; [reflexivity|].
    simpl in H. apply andb_true_iff in H as [Jw Jprops].
    simpl in Hw. specialize (Hw Jw). specialize (IHprops Jprops).
    destruct w; try discriminate; rewrite IHprops; try rewrite Hw; reflexivity.
Qed.

End Backup.

Section RoundTrip.

Import JS App.
Open Scope string_scope.

Lemma normalize_document (P L : value) :
  truthy (JSON_normalize P) = true ->
  JSON_normalize (JObj [("profile", P); ("logs", L)])
  = JObj [("profile", JSON_normalize P); ("logs", JSON_normalize L)]
    \/ (L = JUndefined /\
        JSON_normalize (JObj [("profile", P); ("logs", L)])
        = JObj [("profile", JSON_normalize P)]).
Proof.
  intros HP.
  destruct P; try discriminate HP;
    (destruct L; [right; split; reflexivity | left; reflexivity ..]).
Qed.

Lemma import_export (st st0 : AppState.t) :
  truthy (JSON_normalize (AppState.profile st)) = true ->
  truthy (JSON_normalize (AppState.logs st)) = true ->
  AppState.logs st <> JUndefined ->
  importData (Some (exportData st)) st0 =
    ({| AppState.profile := JSON_normalize (AppState.profile st);
        AppState.logs := JSON_normalize (AppState.logs st);
        AppState.chatHistory := AppState.chatHistory st0 |},
     Some "Data restored successfully!").
Proof.
  intros HP HL NU. unfold exportData, JSON_stringify.
  destruct (normalize_document (AppState.profile st) (AppState.logs st) HP)
    as [E | [E _]]; [|contradiction].
  rewrite E. unfold importData. simpl. rewrite HP, HL. reflexivity.
Qed.

(** C9. Exporting a profile and a log store and importing the document
    again restores both as [JSON.stringify] writes them: the restored
    state exports to the very same document, and when every number in the
    originals is one JSON can write (finite, not -0) the restored profile
    and logs are the originals themselves. *)
Theorem export_import_roundtrip
  (p : UserProfile.t) (ls : list LogEntry.t) (chat : value) (st0 : AppState.t) :
  let st := {| AppState.profile := ToJS.userProfile p;
               AppState.logs := ToJS.logs ls;
               AppState.chatHistory := chat |} in
  let restored := fst (importData (Some (exportData st)) st0) in
  snd (importData (Some (exportData st)) st0) = Some "Data restored successfully!"
  /\ AppState.profile restored = JSON_normalize (AppState.profile st)
  /\ AppState.logs restored = JSON_normalize (AppState.logs st)
  /\ exportData restored = exportData st
  /\ (Spec.isJSON (AppState.profile st) = true ->
      Spec.isJSON (AppState.logs st) = true ->
      AppState.profile restored = AppState.profile st
      /\ AppState.logs restored = AppState.logs st).
Proof.
  cbv zeta.
  rewrite (import_export _ st0) by (reflexivity || discriminate).
  cbn [fst snd AppState.profile AppState.logs].
  split; [reflexivity|]. split; [reflexivity|]. split; [reflexivity|]. split.
  - unfold exportData, JSON_stringify.
    cbn [AppState.profile AppState.logs]. f_equal.
    destruct (normalize_document (ToJS.userProfile p) (ToJS.logs ls) eq_refl)
      as [E | [E _]]; [|discriminate E].
    rewrite E.
    destruct (normalize_document (JSON_normalize (ToJS.userProfile p))
                (JSON_normalize (ToJS.logs ls)) eq_refl)
      as [E' | [E' _]]; [|discriminate E'].
    rewrite E', !normalize_idempotent. reflexivity.
  - intros JP JL. rewrite !normalize_isJSON by assumption. split; reflexivity.
Qed.

End RoundTrip.

(** ** Exercise estimate *)

Section ExerciseEstimate.

Import JS GeminiService.
Open Scope string_scope.

Variable ToString : value -> string.
Variable server : nat -> FetchResult.

Lemma met_own :
  met "low" = 4%float /\ met "medium" = 8%float /\ met "high" = 12%float.
Proof. repeat split. Qed.

Lemma met_default (intensity : string) :
  intensity <> "low" -> intensity <> "medium" -> intensity <> "high" ->
  ~ In intensity Object_prototype ->
  met intensity = 6%float.
Proof.
  intros L M H P. unfold met, intensityMultipliers.
  apply String.eqb_neq in L, M, H. rewrite L, M, H.
  destruct (existsb (String.eqb intensity) Object_prototype) eqn:X;
    [|reflexivity].
  apply existsb_exists in X as (k & I & E). apply String.eqb_eq in E.
  subst k. contradiction.
Qed.

(** Whenever the remote call throws, the local estimate is returned with
    the offline note. *)
Lemma estimateExerciseCalories_offline
  (name : string) (duration : number) (intensity : string)
  (profile : UserProfile.t) (message : string) :
  fst (callApi ToString server 2) = Thrown message ->
  estimateExerciseCalories ToString server name duration intensity profile =
    {| Estimate.calories :=
         JNum (Math_round
                 ((met intensity * 3.5 * UserProfile.weightKg profile) / 200
                  * duration)%float);
       Estimate.note := JStr "Offline estimate (API unavailable)." |}.
Proof.
  intros E. unfold estimateExerciseCalories. rewrite E. reflexivity.
Qed.

(** On remote success with an object, the remote calories are returned,
    and 0 when they are missing. *)
Lemma estimateExerciseCalories_remote
  (name : string) (duration : number) (intensity : string)
  (profile : UserProfile.t) (props : list (string * value)) :
  fst (callApi ToString server 2) = Returned (JObj props) ->
  Estimate.calories
    (estimateExerciseCalories ToString server name duration intensity profile)
  = or_else (lookup "calories" props) (JNum 0%float)
  /\ (lookup "calories" props = JUndefined ->
      Estimate.calories
        (estimateExerciseCalories ToString server name duration intensity profile)
      = JNum 0%float).
Proof.
  intros E. unfold estimateExerciseCalories. rewrite E. simpl.
  split; [reflexivity|]. intros ->. reflexivity.
Qed.

End ExerciseEstimate.

(** C10 at an intensity string that names a member every object inherits:
    with the network down, 30 minutes at intensity "constructor" for a
    70 kg user yields NaN calories, where the claimed estimate with a MET
    of 6 is 221 (220.5 rounded). *)
Theorem estimateExerciseCalories_inherited_intensity :
  fst (GeminiService.callApi Spec.noToString Spec.offline 2)
    = JS.Thrown "Failed to fetch"%string
  /\ GeminiService.estimateExerciseCalories Spec.noToString Spec.offline
       "Rowing" 30%float "constructor" Spec.exampleProfile
     = {| Estimate.calories := JS.JNum nan;
          Estimate.note := JS.JStr "Offline estimate (API unavailable)." |}
  /\ JS.Math_round ((6 * 3.5 * 70) / 200 * 30)%float = 221%float
  /\ GeminiService.estimateExerciseCalories Spec.noToString Spec.offline
       "Rowing" 30%float "swimming" Spec.exampleProfile
     = {| Estimate.calories := JS.JNum 221%float;
          Estimate.note := JS.JStr "Offline estimate (API unavailable)." |}.
Proof.
  repeat split; vm_compute; reflexivity.
Qed.

(** ** Instances *)

Section Instances.

Import JS.
Open Scope string_scope.

Example Math_round_ties :
  map Math_round [2.5; -2.5; 0.5; -0.5; 0.49999999999999994; 220.5; -0.2; nan]%float
  = [3; -2; 1; -0; 0; 221; -0; nan]%float.
Proof. vm_compute. reflexivity. Qed.

Example Math_max_floor :
  map (Math_max 0) [-3; -0; 7; nan]%float = [0; 0; 7; nan]%float.
Proof. vm_compute. reflexivity. Qed.

Example includes_lowered :
  includes (toLowerCase "Light WEIGHT training") "weight" = true
  /\ includes (toLowerCase "Morning run") "lift" = false.
Proof. split; vm_compute; reflexivity. Qed.

Example todayTotals_sample :
  Dashboard.todayTotals Spec.utc Spec.sampleLogs 5000 =
  {| Totals.calories := 300; Totals.protein := 11; Totals.carbs := 54;
     Totals.fat := 6; Totals.burned := 180 |}.
Proof. vm_compute. reflexivity. Qed.

Example chartData_sample :
  map ChartPoint.calories (Dashboard.chartData Spec.utc Spec.sampleLogs (Spec.stopped 5000))
  = [0; 0; 0; 0; 0; 0; 300]%float
  /\ map ChartPoint.name (Dashboard.chartData Spec.utc Spec.sampleLogs (Spec.stopped 5000))
     = ["Fri"; "Sat"; "Sun"; "Mon"; "Tue"; "Wed"; "Thu"].
Proof. split; vm_compute; reflexivity. Qed.

(** New York, Sunday 5 November 2023, a day of 25 hours: the meals of
    00:30 EDT and 23:30 EST are both today's at 23:45 EST, as is the
    workout of 00:31 EDT; Saturday's meal is on the point next to
    Sunday's in the chart. *)
Example todayTotals_long_sunday :
  (LogEntry.timestamp Spec.lateMeal - LogEntry.timestamp Spec.earlyMeal
   = 86400000)%Z
  /\ Dashboard.todayTotals Spec.newYork Spec.longSunday Spec.sundayEvening =
     {| Totals.calories := 300; Totals.protein := 11; Totals.carbs := 54;
        Totals.fat := 6; Totals.burned := 180 |}
  /\ Dashboard.hasStrength Spec.newYork Spec.longSunday Spec.sundayEvening
     = true.
Proof. repeat split; vm_compute; reflexivity. Qed.

Example chartData_long_sunday :
  map ChartPoint.calories
    (Dashboard.chartData Spec.newYork Spec.longSunday (Spec.stopped Spec.sundayEvening))
  = [0; 0; 0; 0; 0; 150; 300]%float
  /\ map ChartPoint.name
       (Dashboard.chartData Spec.newYork Spec.longSunday (Spec.stopped Spec.sundayEvening))
     = ["Mon"; "Tue"; "Wed"; "Thu"; "Fri"; "Sat"; "Sun"].
Proof. split; vm_compute; reflexivity. Qed.

(** When midnight passes between the fourth and the fifth turn of the
    loop, the chart still has seven points, but Friday is not among them
    and Monday is there twice. *)
Example chartData_over_midnight :
  map ChartPoint.name
    (Dashboard.chartData Spec.newYork Spec.longSunday Spec.overMidnight)
  = ["Mon"; "Tue"; "Wed"; "Thu"; "Sat"; "Sun"; "Mon"].
Proof. vm_compute. reflexivity. Qed.

Example callApi_busy_trace :
  GeminiService.callApi Spec.noToString Spec.alwaysBusy 3
  = (Thrown "Server is busy (Status 429)",
     [GeminiService.Fetch; GeminiService.Sleep 3000; GeminiService.Fetch;
      GeminiService.Sleep 6000; GeminiService.Fetch]).
Proof. vm_compute. reflexivity. Qed.

(** A 400 reply whose wording contains "busy" is retried like a
    rate-limit response, to the last permitted attempt. *)
Example callApi_busy_wording :
  GeminiService.callApi Spec.noToString (fun _ => Spec.busyWording) 3
  = (Thrown "The model is busy thinking",
     [GeminiService.Fetch; GeminiService.Sleep 3000; GeminiService.Fetch;
      GeminiService.Sleep 6000; GeminiService.Fetch]).
Proof. vm_compute. reflexivity. Qed.

Example callApi_single_attempt :
  snd (GeminiService.callApi Spec.noToString Spec.alwaysBusy 1)
  = [GeminiService.Fetch].
Proof. vm_compute. reflexivity. Qed.

Lemma todayTotals_sums_witness :
  Zones.Days Spec.newYork
  /\ Dashboard.todayTotals Spec.newYork Spec.longSunday Spec.sundayEvening =
     {| Totals.calories := 300; Totals.protein := 11; Totals.carbs := 54;
        Totals.fat := 6; Totals.burned := 180 |}
  /\ (Spec.foodItemsOf Spec.diary = [] /\ Spec.burnedOf Spec.diary = [])
  /\ Dashboard.todayTotals Spec.utc Spec.sampleLogs 86400000
     = Dashboard.zeroTotals.
Proof.
  split; [exact (proj1 newYork_laws)|]. split; [|split].
  - rewrite (proj1 (todayTotals_sums Spec.newYork (proj1 newYork_laws)
                      Spec.longSunday Spec.sundayEvening)).
    vm_compute. reflexivity.
  - apply (proj1 (proj2 (todayTotals_sums Spec.utc (proj1 utc_laws)
                           Spec.sampleLogs 5000)) Spec.diary).
    + simpl. left. reflexivity.
    + reflexivity.
  - apply (proj2 (proj2 (todayTotals_sums Spec.utc (proj1 utc_laws)
                           Spec.sampleLogs 86400000))).
    reflexivity.
Defined.

Lemma hasStrength_iff_witness :
  Zones.Days Spec.newYork
  /\ Dashboard.hasStrength Spec.newYork Spec.longSunday Spec.sundayEvening
     = true
  /\ Dashboard.hasStrength Spec.utc Spec.sampleLogs 5000 = true.
Proof.
  split; [exact (proj1 newYork_laws)|]. split.
  - apply (proj1 (hasStrength_iff Spec.newYork (proj1 newYork_laws)
                    Spec.longSunday Spec.sundayEvening)).
    exists Spec.earlyDeadlift,
      {| ExerciseItem.name := "Deadlift";
         ExerciseItem.durationMinutes := 45;
         ExerciseItem.caloriesBurned := 180;
         ExerciseItem.intensity := low |}.
    split; [simpl; right; left; reflexivity|].
    split; [vm_compute; reflexivity|].
    split; [reflexivity|]. split; [reflexivity|].
    right. right. right. exists "dead"%string, EmptyString. reflexivity.
  - apply (proj2 (hasStrength_iff Spec.utc (proj1 utc_laws)
                    Spec.sampleLogs 5000) Spec.deadlift
             {| ExerciseItem.name := "Deadlift Strength Session";
                ExerciseItem.durationMinutes := 45;
                ExerciseItem.caloriesBurned := 180;
                ExerciseItem.intensity := low |}).
    + simpl. right. left. reflexivity.
    + reflexivity.
    + reflexivity.
    + reflexivity.
    + reflexivity.
    + reflexivity.
Defined.


Lemma updateItemQuantity_scales_witness :
  exists items' item,
    EntryForm.updateItemQuantity (Some [Spec.oats; Spec.oats]) 1 2.5%float
      = Returned (Some items')
    /\ nth_error items' 1 = Some item
    /\ FoodItem.quantity item = 2.5%float
    /\ FoodItem.calories item = 375%float
    /\ FoodItem.protein item = 13.8%float
    /\ nth_error items' 0 = Some Spec.oats.
Proof.
  destruct (updateItemQuantity_scales [Spec.oats; Spec.oats] 1 2.5%float
              Spec.oats eq_refl)
    as (items' & item & U & N & Q & C & P & _ & _ & B & _ & O).
  exists items', item.
  split; [exact U|]. split; [exact N|]. split; [exact Q|].
  injection B as B1 B2 B3 B4.
  split; [rewrite C, B1; reflexivity|].
  split; [rewrite P, B2; reflexivity|].
  apply (O 0%nat). discriminate.
Defined.

Lemma callApi_retry_policy_witness :
  exists n,
    (n <= 3)%nat
    /\ snd (GeminiService.callApi Spec.noToString Spec.alwaysBusy 3)
       = Spec.backoffTrace n
    /\ fst (GeminiService.callApi Spec.noToString Spec.alwaysBusy 3)
       = GeminiService.attempt Spec.noToString (Spec.alwaysBusy (n - 1)).
Proof.
  destruct (callApi_retry_policy Spec.noToString Spec.alwaysBusy 3)
    as (n & B & T & _ & R & _).
  exists n. split; [exact B|]. split; [exact T|].
  apply R. apply Nat.lt_0_succ.
Defined.

Lemma importData_policy_witness :
  App.importData (Some (App.exportData Spec.sampleState)) Spec.blankState
  = ({| AppState.profile := ToJS.userProfile Spec.exampleProfile;
        AppState.logs := ToJS.logs Spec.sampleLogs;
        AppState.chatHistory := JArr [] |},
     Some "Data restored successfully!")
  /\ fst (App.importData (Some (App.NotJSON "Unexpected end of JSON input"))
            Spec.sampleState) = Spec.sampleState
  /\ fst (App.importData
            (Some (App.JSONText (JObj [("profile", JObj []); ("logs", JNum 0%float)])))
            Spec.sampleState) = Spec.sampleState.
Proof.
  split.
  - apply (proj1 (importData_policy (App.exportData Spec.sampleState)
                    Spec.blankState)
             (JObj [("profile", ToJS.userProfile Spec.exampleProfile);
                    ("logs", ToJS.logs Spec.sampleLogs)])).
    + vm_compute. reflexivity.
    + reflexivity.
    + reflexivity.
    + reflexivity.
    + reflexivity.
  - split.
    + apply (proj2 (importData_policy (App.NotJSON "Unexpected end of JSON input")
                      Spec.sampleState)).
      intros data H. discriminate H.
    + apply (proj2 (importData_policy
                      (App.JSONText (JObj [("profile", JObj []); ("logs", JNum 0%float)]))
                      Spec.sampleState)).
      intros data H. injection H as <-. intros (p & l & _ & _ & Gl & Tl).
      injection Gl as <-. discriminate Tl.
Defined.

Lemma export_import_roundtrip_witness :
  AppState.profile
    (fst (App.importData (Some (App.exportData Spec.sampleState)) Spec.blankState))
  = ToJS.userProfile Spec.exampleProfile
  /\ AppState.logs
       (fst (App.importData (Some (App.exportData Spec.sampleState)) Spec.blankState))
     = ToJS.logs Spec.sampleLogs.
Proof.
  apply (proj2 (proj2 (proj2 (proj2
           (export_import_roundtrip Spec.exampleProfile Spec.sampleLogs
              (JArr []) Spec.blankState))))).
  - vm_compute. reflexivity.
  - vm_compute. reflexivity.
Defined.

End Instances.

(** ** Order on numbers *)

Section FloatOrder.

Open Scope float_scope.

Lemma SFcompare_antisym (x y : spec_float) :
  SFcompare y x = option_map CompOpp (SFcompare x y).
Proof.
  destruct x as [sx|sx| |sx mx ex], y as [sy|sy| |sy my ey]; simpl;
    try reflexivity; try (destruct sx; reflexivity);
    try (destruct sy; reflexivity); try (destruct sx, sy; reflexivity).
  f_equal. destruct sx, sy; try reflexivity;
    rewrite (Z.compare_antisym ex ey);
    destruct (ex ?= ey)%Z; simpl; try reflexivity;
    rewrite !Pos.compare_cont_spec; simpl;
    rewrite (Pos.compare_antisym mx my);
    destruct (mx ?= my)%positive; reflexivity.
Qed.

Lemma float_ltb_asym (x y : float) : (x <? y) = true -> (y <? x) = false.
Proof.
  rewrite !FloatAxioms.ltb_spec. unfold SFltb.
  rewrite (SFcompare_antisym (Prim2SF x) (Prim2SF y)).
  destruct (SFcompare (Prim2SF x) (Prim2SF y)) as [[]|]; simpl;
    intros H; try discriminate; reflexivity.
Qed.

Lemma Math_max_zero_not_negative (y : float) :
  (JS.Math_max 0 y <? 0) = false.
Proof.
  unfold JS.Math_max.
  destruct (is_nan 0 || is_nan y); [reflexivity|].
  destruct (0 <? y) eqn:P; [apply float_ltb_asym; exact P|].
  destruct (y <? 0) eqn:N; reflexivity.
Qed.

Lemma Math_min_hundred_not_above (x : float) :
  (100 <? JS.Math_min x 100) = false.
Proof.
  unfold JS.Math_min.
  destruct (is_nan x || is_nan 100); [reflexivity|].
  destruct (x <? 100) eqn:B; [apply float_ltb_asym; exact B|].
  destruct (100 <? x) eqn:A; [reflexivity|].
  destruct (get_sign x); [exact A | reflexivity].
Qed.

(** X1. The carbohydrate target is never negative, whatever the profile. *)
Theorem targetCarbs_not_negative (p : UserProfile.t) (trainingLoad : bool) :
  (MacroTargets.carbs (Targets.macroTargets (Dashboard.targets p trainingLoad)) <? 0)
  = false.
Proof.
  unfold Dashboard.targets.
  destruct (Dashboard.goalBranch (UserProfile.goal p) trainingLoad (Dashboard.tdee p))
    as [[target msg] proteinFactor].
  apply Math_max_zero_not_negative.
Qed.

(** X2. The progress bar of a macro card is never wider than 100 percent,
    whatever amount and target it is given. *)
Theorem progress_at_most_100 (amount target : float) :
  (100 <? Dashboard.progress amount target) = false.
Proof.
  apply Math_min_hundred_not_above.
Qed.

End FloatOrder.

(** ** Sorting newest first *)

Section NewestFirst.

Import JS AppHandlers.

Lemma sortInsert_perm {A : Type} (compareFn : A -> A -> Z) (x : A) (l : list A) :
  Permutation (sortInsert compareFn x l) (x :: l).
Proof.
  induction l as [|y l IH]; simpl; [reflexivity|].
  destruct (compareFn x y <=? 0)%Z; [reflexivity|].
  rewrite IH. apply perm_swap.
Qed.

Lemma Array_sort_perm {A : Type} (compareFn : A -> A -> Z) (l : list A) :
  Permutation (Array_sort compareFn l) l.
Proof.
  induction l as [|x l IH]; simpl; [reflexivity|].
  rewrite sortInsert_perm. constructor. exact IH.
Qed.

Lemma sortInsert_newestFirst (x : LogEntry.t) (l : list LogEntry.t) :
  StronglySorted Derived.newestFirst l ->
  StronglySorted Derived.newestFirst (sortInsert byNewest x l).
Proof.
  induction 1 as [|y l S IH F]; simpl; [repeat constructor|].
  unfold byNewest at 1.
  destruct (Z.leb_spec (LogEntry.timestamp y - LogEntry.timestamp x) 0) as [L|G].
  - constructor; [constructor; assumption|].
    constructor; [unfold Derived.newestFirst; lia|].
    eapply Forall_impl; [|exact F].
    unfold Derived.newestFirst. intros z Hz. lia.
  - constructor; [exact IH|].
    eapply Permutation_Forall; [symmetry; apply sortInsert_perm|].
    constructor; [unfold Derived.newestFirst; lia | exact F].
Qed.

Lemma Array_sort_newestFirst (l : list LogEntry.t) :
  StronglySorted Derived.newestFirst (Array_sort byNewest l).
Proof.
  induction l as [|x l IH]; simpl; [constructor|].
  apply sortInsert_newestFirst. exact IH.
Qed.

Lemma sortInsert_stable (t : Z) (x : LogEntry.t) (l : list LogEntry.t) :
  filter (fun e => (LogEntry.timestamp e =? t)%Z) (sortInsert byNewest x l)
  = filter (fun e => (LogEntry.timestamp e =? t)%Z) (x :: l).
Proof.
  induction l as [|y l IH]; [reflexivity|].
  cbn [sortInsert]. unfold byNewest at 1.
  destruct (Z.leb_spec (LogEntry.timestamp y - LogEntry.timestamp x) 0) as [L|G];
    [reflexivity|].
  cbn [filter] in *. rewrite IH.
  destruct (Z.eqb_spec (LogEntry.timestamp y) t) as [Ey|Ny];
    destruct (Z.eqb_spec (LogEntry.timestamp x) t) as [Ex|Nx];
    try reflexivity.
  lia.
Qed.

Lemma Array_sort_stable (t : Z) (l : list LogEntry.t) :
  filter (fun e => (LogEntry.timestamp e =? t)%Z) (Array_sort byNewest l)
  = filter (fun e => (LogEntry.timestamp e =? t)%Z) l.
Proof.
  induction l as [|x l IH]; [reflexivity|].
  cbn [Array_sort]. rewrite sortInsert_stable. cbn [filter]. rewrite IH.
  reflexivity.
Qed.

Lemma skipn_In {A : Type} (n : nat) (l : list A) (x : A) :
  In x (skipn n l) -> In x l.
Proof.
  revert l. induction n as [|n IH]; intros [|y l] H; try exact H.
  right. apply IH. exact H.
Qed.

Lemma sorted_split (l : list LogEntry.t) (n : nat) (a b : LogEntry.t) :
  StronglySorted Derived.newestFirst l ->
  In a (firstn n l) -> In b (skipn n l) -> Derived.newestFirst a b.
Proof.
  intros S. revert n. induction S as [|x l S IH F]; intros n Ia Ib.
  - destruct n; contradiction.
  - destruct n as [|n]; [contradiction|]. cbn [firstn skipn] in *.
    destruct Ia as [<-|Ia].
    + rewrite Forall_forall in F. apply F.
      apply (skipn_In n l). exact Ib.
    + eapply IH; eassumption.
Qed.

(** X3. The logs sent along with a chat message are at most 100 entries of
    the store, ordered newest first with entries of equal timestamp in
    their stored order, and they are the most recent ones: no entry left
    out is newer than an entry sent.  A store of at most 100 entries is
    sent whole. *)
Theorem recentLogs_most_recent (logs : list LogEntry.t) :
  (List.length (recentLogs logs) <= 100)%nat
  /\ StronglySorted Derived.newestFirst (recentLogs logs)
  /\ Permutation (recentLogs logs ++ skipn 100 (Array_sort byNewest logs)) logs
  /\ (forall a b, In a (recentLogs logs) ->
                  In b (skipn 100 (Array_sort byNewest logs)) ->
                  Derived.newestFirst a b)
  /\ (forall t,
        filter (fun e => (LogEntry.timestamp e =? t)%Z)
          (recentLogs logs ++ skipn 100 (Array_sort byNewest logs))
        = filter (fun e => (LogEntry.timestamp e =? t)%Z) logs)
  /\ ((List.length logs <= 100)%nat -> Permutation (recentLogs logs) logs).
Proof.
  unfold recentLogs.
  pose proof (Array_sort_newestFirst logs) as S.
  pose proof (Array_sort_perm byNewest logs) as P.
  split; [apply firstn_le_length|].
  split.
  { rewrite <- (firstn_skipn 100 (Array_sort byNewest logs)) in S.
    revert S. generalize (firstn 100 (Array_sort byNewest logs)) as front.
    induction front as [|x front IH]; intro S; [constructor|].
    cbn [app] in S. inversion S as [|? ? S' F]; subst.
    constructor; [apply IH; exact S'|].
    apply Forall_app in F. apply F. }
  split; [rewrite firstn_skipn; exact P|].
  split; [intros a b; apply sorted_split; exact S|].
  split; [intro t; rewrite firstn_skipn; apply Array_sort_stable|].
  intros L. rewrite firstn_all2; [exact P|].
  rewrite (Permutation_length P). exact L.
Qed.

End NewestFirst.

(** ** Today's list, totals and signal *)

Section TodayViews.

Variable zone : Zone.t.
Hypothesis days : Zones.Days zone.

Import JS Dashboard.

Lemma todaysFilter_entriesOn (logs : list LogEntry.t) (clock : nat -> Z)
  (day : Z) (i : nat) :
  (forall j, localDay zone (clock j) = day) ->
  todaysFilter zone logs clock i = Spec.entriesOn zone day logs.
Proof.
  intros D. revert i.
  induction logs as [|l logs IH]; intro i; [reflexivity|].
  cbn [todaysFilter Spec.entriesOn filter].
  rewrite (isSameDay_localDay zone days), D, IH. reflexivity.
Qed.

(** X4. The entries listed under "Today's Logs" at a render, during which
    the clock is read for every stored entry and stays within one local
    day, are the entries of that day, newest first.  The totals and the
    training-load signal are kept from the moment the log store last
    changed: when the render falls on the same local day as that moment,
    the list holds exactly the entries that feed them, and is empty, with
    "Nothing logged yet." shown, exactly when no entry fed them. *)
Theorem todaysLogList_same_entries
  (logs : list LogEntry.t) (computed : Z) (rendered : nat -> Z) (day : Z) :
  (forall j, localDay zone (rendered j) = day) ->
  Permutation (todaysLogList zone logs rendered) (Spec.entriesOn zone day logs)
  /\ StronglySorted Derived.newestFirst (todaysLogList zone logs rendered)
  /\ (day = localDay zone computed ->
      Permutation (todaysLogList zone logs rendered)
        (todayLogs zone logs computed)
      /\ (todaysLogList zone logs rendered = []
          <-> todayLogs zone logs computed = [])).
Proof.
  intros R. unfold todaysLogList.
  rewrite (todaysFilter_entriesOn logs rendered day 0 R).
  rewrite !(todayLogs_entriesOn zone days).
  pose proof (Array_sort_perm
                (fun a b => (LogEntry.timestamp b - LogEntry.timestamp a)%Z)
                (Spec.entriesOn zone day logs)) as P.
  split; [exact P|]. split; [apply Array_sort_newestFirst|].
  intros D. rewrite <- D. split; [exact P|].
  split; intro E.
  - rewrite E in P. apply Permutation_nil. exact P.
  - rewrite E. reflexivity.
Qed.

Lemma entriesOn_other_day (day : Z) (before after : list LogEntry.t)
  (e : LogEntry.t) :
  localDay zone (LogEntry.timestamp e) <> day ->
  Spec.entriesOn zone day (before ++ e :: after)
  = Spec.entriesOn zone day (before ++ after).
Proof.
  intros N. unfold Spec.entriesOn. rewrite !filter_app. cbn [filter].
  destruct (Z.eqb_spec (localDay zone (LogEntry.timestamp e)) day);
    [contradiction | reflexivity].
Qed.

(** X5. An entry of another local day, wherever it stands in the store, changes
    neither today's totals, nor the training-load signal, nor the list of
    today's logs as rendered while the clock stays within today. *)
Theorem other_day_entry_ignored
  (before after : list LogEntry.t) (e : LogEntry.t) (now : Z) :
  localDay zone (LogEntry.timestamp e) <> localDay zone now ->
  todayTotals zone (before ++ e :: after) now
    = todayTotals zone (before ++ after) now
  /\ hasStrength zone (before ++ e :: after) now
     = hasStrength zone (before ++ after) now
  /\ (forall rendered rendered' : nat -> Z,
        (forall j, localDay zone (rendered j) = localDay zone now) ->
        (forall j, localDay zone (rendered' j) = localDay zone now) ->
        todaysLogList zone (before ++ e :: after) rendered
        = todaysLogList zone (before ++ after) rendered').
Proof.
  intros N. unfold todayTotals, hasStrength, todaysLogList.
  rewrite !(todayLogs_entriesOn zone days).
  rewrite (entriesOn_other_day _ before after e N).
  split; [reflexivity|]. split; [reflexivity|].
  intros rendered rendered' R R'.
  rewrite (todaysFilter_entriesOn _ rendered _ 0 R).
  rewrite (todaysFilter_entriesOn _ rendered' _ 0 R').
  rewrite (entriesOn_other_day _ before after e N). reflexivity.
Qed.

(** X6. The training-load signal depends only on which entries the store
    holds, not on their order, and adding entries never switches it off. *)
Theorem hasStrength_monotone (logs logs' : list LogEntry.t) (now : Z) :
  incl logs logs' ->
  hasStrength zone logs now = true ->
  hasStrength zone logs' now = true.
Proof.
  unfold hasStrength, todayLogs. intros I H.
  apply existsb_exists in H as (l & Hl & S).
  apply filter_In in Hl as [Hl D].
  apply existsb_exists. exists l. split; [|exact S].
  apply filter_In. split; [apply I; exact Hl | exact D].
Qed.

Lemma dayFoodCalories_other_day (day : Z) (before after : list LogEntry.t)
  (e : LogEntry.t) :
  localDay zone (LogEntry.timestamp e) <> day ->
  Spec.dayFoodCalories zone day (before ++ e :: after)
  = Spec.dayFoodCalories zone day (before ++ after).
Proof.
  intros N. unfold Spec.dayFoodCalories.
  rewrite (entriesOn_other_day _ before after e N). reflexivity.
Qed.

(** X7. While no midnight passes during the loop, an entry older than six
    days before today, or later than today, does not change the chart,
    wherever it stands in the store. *)
Theorem chartData_outside_window (back : Zones.DaysBack zone)
  (before after : list LogEntry.t) (e : LogEntry.t) (clock : nat -> Z)
  (today : Z) :
  (forall i, (i <= 6)%nat -> localDay zone (clock i) = today) ->
  (localDay zone (LogEntry.timestamp e) < today - 6
   \/ today < localDay zone (LogEntry.timestamp e))%Z ->
  chartData zone (before ++ e :: after) clock
  = chartData zone (before ++ after) clock.
Proof.
  intros D O. unfold chartData. cbn [chartLoop app].
  rewrite !(chartPoint_spec zone (conj days back)).
  rewrite !D by (repeat constructor).
  rewrite !(dayFoodCalories_other_day _ before after e) by lia.
  reflexivity.
Qed.

End TodayViews.

(** ** The log store *)

Section LogStore.

Variable zone : Zone.t.
Variable ToString : JS.value -> string.
Variable server : nat -> GeminiService.FetchResult.

Import JS AppHandlers EntryFormSave.

Lemma filter_all {A : Type} (f : A -> bool) (l : list A) :
  (forall x, In x l -> f x = true) -> filter f l = l.
Proof.
  induction l as [|y l IH]; intros H; [reflexivity|]. simpl.
  rewrite (H y (or_introl eq_refl)). f_equal. apply IH.
  intros x Hx. apply H. right. exact Hx.
Qed.

(** X8. Saving a new entry and then deleting it by its id gives back the
    store as it was, provided no stored entry already had that id;
    whether the feedback call succeeds makes no difference. *)
Theorem create_then_delete
  (entry : LogEntry.t) (prev : list LogEntry.t) (modal : FeedbackModal.t) :
  (forall l, In l prev -> LogEntry.id l <> LogEntry.id entry) ->
  handleDeleteLog true (LogEntry.id entry)
    (fst (handleSaveEntry ToString server None entry prev modal))
  = prev.
Proof.
  intros F. cbn [handleSaveEntry fst handleDeleteLog filter].
  rewrite String.eqb_refl. cbn [negb]. apply filter_all.
  intros l Hl. apply negb_true_iff, String.eqb_neq, F. exact Hl.
Qed.

(** X9. Saving an edit keeps the number and the order of the stored entries:
    at every position the entry is the saved one if its id is the saved
    entry's id and the stored one otherwise.  When no stored entry has
    that id the store is left as it was, and the edit is lost. *)
Theorem edit_replaces_in_place
  (editing entry : LogEntry.t) (prev : list LogEntry.t) (modal : FeedbackModal.t) :
  let logs := fst (handleSaveEntry ToString server (Some editing) entry prev modal) in
  List.length logs = List.length prev
  /\ (forall i, nth_error logs i =
        option_map (fun l => if String.eqb (LogEntry.id l) (LogEntry.id entry)
                             then entry else l)
                   (nth_error prev i))
  /\ ((forall l, In l prev -> LogEntry.id l <> LogEntry.id entry) -> logs = prev)
  /\ snd (handleSaveEntry ToString server (Some editing) entry prev modal) = modal.
Proof.
  cbn [handleSaveEntry fst snd]. split; [apply length_map|].
  split; [intro i; apply nth_error_map|]. split; [|reflexivity].
  intros F. rewrite <- (map_id prev) at 2. apply map_ext_in.
  intros l Hl. apply F in Hl. apply String.eqb_neq in Hl. rewrite Hl. reflexivity.
Qed.

Lemma unique_id (logs : list LogEntry.t) (a b : LogEntry.t) :
  NoDup (map LogEntry.id logs) -> In a logs -> In b logs ->
  LogEntry.id a = LogEntry.id b -> a = b.
Proof.
  induction logs as [|x logs IH]; intros N Ia Ib E; [contradiction|].
  cbn [map] in N. inversion N as [|? ? Nx N']; subst.
  destruct Ia as [<-|Ia], Ib as [<-|Ib]; auto.
  - exfalso. apply Nx. rewrite E. apply in_map. exact Ib.
  - exfalso. apply Nx. rewrite <- E. apply in_map. exact Ia.
Qed.

Lemma edit_keeps_days_generic
  (e entry : LogEntry.t) (logs : list LogEntry.t) (day : Z) :
  NoDup (map LogEntry.id logs) -> In e logs ->
  LogEntry.id entry = LogEntry.id e ->
  LogEntry.timestamp entry = LogEntry.timestamp e ->
  map LogEntry.id
    (Spec.entriesOn zone day
       (map (fun l => if String.eqb (LogEntry.id l) (LogEntry.id entry)
                      then entry else l) logs))
  = map LogEntry.id (Spec.entriesOn zone day logs).
Proof.
  intros N I Ei Et.
  assert (same : forall l, In l logs ->
    let l' := if String.eqb (LogEntry.id l) (LogEntry.id entry) then entry else l in
    LogEntry.id l' = LogEntry.id l /\ LogEntry.timestamp l' = LogEntry.timestamp l).
  { intros l Hl. cbv zeta.
    destruct (String.eqb_spec (LogEntry.id l) (LogEntry.id entry)) as [E|_];
      [|split; reflexivity].
    assert (l = e) as -> by (apply (unique_id logs); congruence).
    split; assumption. }
  clear N I. unfold Spec.entriesOn.
  induction logs as [|x logs IH]; [reflexivity|].
  cbn [map filter].
  destruct (same x (or_introl eq_refl)) as [Hi Ht]. cbv zeta in Hi, Ht.
  rewrite Ht.
  destruct (Dashboard.localDay zone (LogEntry.timestamp x) =? day)%Z;
    cbn [map]; rewrite ?Hi, IH; try reflexivity;
    intros l Hl; apply same; right; exact Hl.
Qed.

(** X10. Editing a stored note or meal never moves it to another day,
    whatever the time zone: with distinct ids in the store, after the
    edited entry is saved every local day holds the entries with the same
    ids, in the same order, as before. *)
Theorem edit_keeps_days
  (e : LogEntry.t) (logs : list LogEntry.t) (modal : FeedbackModal.t)
  (textInput : string) (items : list FoodItem.t) (image : option string)
  (now1 now2 day : Z) :
  NoDup (map LogEntry.id logs) -> In e logs ->
  map LogEntry.id
    (Spec.entriesOn zone day
       (fst (handleSaveEntry ToString server (Some e)
               (saveNoteLog textInput (Some e) now1 now2) logs modal)))
  = map LogEntry.id (Spec.entriesOn zone day logs)
  /\ (forall entry,
        saveFoodLog (Some items) image (Some e) now1 now2 = Some entry ->
        map LogEntry.id
          (Spec.entriesOn zone day
             (fst (handleSaveEntry ToString server (Some e) entry logs modal)))
        = map LogEntry.id (Spec.entriesOn zone day logs)).
Proof.
  intros N I. split.
  - cbn [handleSaveEntry fst].
    apply (edit_keeps_days_generic e); auto.
  - intros entry E. cbn [saveFoodLog] in E. injection E as <-.
    cbn [handleSaveEntry fst].
    apply (edit_keeps_days_generic e); auto.
Qed.

End LogStore.

(** ** Chat turns *)

Section ChatTurn.

Variable ToString : JS.value -> string.
Variable server : nat -> GeminiService.FetchResult.

Import JS AppHandlers.
Open Scope string_scope.

(** X11. A chat turn with a message that is not blank appends exactly two
    messages to the transcript, the user's text and then the model's
    reply, and leaves the stored log array holding the same entries
    reordered newest first; a blank message changes nothing. *)
Theorem chat_turn (text : string) (logs : list LogEntry.t)
  (chatHistory : list ChatMessage.t) (now1 now2 now3 now4 : Z) :
  let after := handleSendChatMessage ToString server text logs chatHistory
                 now1 now2 now3 now4 in
  (trim text = EmptyString -> after = (logs, chatHistory))
  /\ (trim text <> EmptyString ->
      exists userMsg modelMsg,
        snd after = (chatHistory ++ [userMsg; modelMsg])%list
        /\ ChatMessage.role userMsg = user
        /\ ChatMessage.text userMsg = JStr text
        /\ ChatMessage.role modelMsg = model
        /\ ChatMessage.text modelMsg = Services.chatWithNutritionist ToString server
        /\ Permutation (fst after) logs
        /\ StronglySorted Derived.newestFirst (fst after)).
Proof.
  cbv zeta. unfold handleSendChatMessage. split.
  - intros ->. reflexivity.
  - intros N. apply String.eqb_neq in N. rewrite N.
    eexists; eexists. cbn [fst snd].
    split; [reflexivity|]. repeat (split; [reflexivity|]).
    split; [apply Array_sort_perm | apply Array_sort_newestFirst].
Qed.

(** When the transport fails for good, the reply is the error message
    behind "Error connecting to assistant: ". *)
Lemma chat_reply_on_failure (message : string) :
  fst (GeminiService.callApi ToString server 2) = Thrown message ->
  Services.chatWithNutritionist ToString server
  = JStr ("Error connecting to assistant: " ++ message).
Proof.
  intros E. unfold Services.chatWithNutritionist. rewrite E. reflexivity.
Qed.

End ChatTurn.

(** ** Rescaling, again *)

Section RescalingOrder.

Import JS EntryForm.

Lemma setAt_setAt {A : Type} (l : list A) (i : nat) (x y : A) :
  setAt (setAt l i x) i y = setAt l i y.
Proof.
  revert i. induction l as [|z l IH]; intros [|i]; simpl; try reflexivity.
  rewrite IH. reflexivity.
Qed.

Lemma setAt_swap {A : Type} (l : list A) (i j : nat) (x y : A) :
  i <> j -> setAt (setAt l i x) j y = setAt (setAt l j y) i x.
Proof.
  revert i j. induction l as [|z l IH]; intros [|i] [|j] N; simpl;
    try reflexivity; try contradiction.
  rewrite IH by congruence. reflexivity.
Qed.

(** X12. Quantity edits do not build on one another: the values of an item
    depend only on its base values and on the quantity set last, so
    setting [q1] and then [q2] is the same as setting [q2] at once, and
    edits of two different items can be made in either order. *)
Theorem updateItemQuantity_last_wins
  (items items1 : list FoodItem.t) (i j : nat) (q1 q2 : number) :
  updateItemQuantity (Some items) i q1 = Returned (Some items1) ->
  updateItemQuantity (Some items1) i q2 = updateItemQuantity (Some items) i q2
  /\ (i <> j ->
      forall items2,
        updateItemQuantity (Some items) j q2 = Returned (Some items2) ->
        updateItemQuantity (Some items1) j q2 = updateItemQuantity (Some items2) i q1).
Proof.
  unfold updateItemQuantity. intros H.
  destruct (nth_error items i) as [a|] eqn:A; [|discriminate].
  injection H as <-. split.
  - rewrite (setAt_same items i _ a A). cbn [rescale]. rewrite setAt_setAt.
    reflexivity.
  - intros N items2 H2.
    destruct (nth_error items j) as [b|] eqn:B; [|discriminate].
    injection H2 as <-.
    rewrite (setAt_other items i j _ N), B.
    rewrite (setAt_other items j i _ (not_eq_sym N)), A.
    rewrite setAt_swap by exact N. reflexivity.
Qed.

End RescalingOrder.

(** ** Saving entries *)

Section Saving.

Import JS EntryFormSave.
Open Scope float_scope.





Lemma or_else_number (x : number) :
  is_nan x = false -> is_zero x = false ->
  or_else (JNum x) (JNum 0) = JNum x.
Proof.
  intros N Hz. unfold or_else. cbn [truthy]. rewrite N, Hz. reflexivity.
Qed.

Variable ToString : value -> string.
Variable parseInt : string -> number.
Variable server : nat -> GeminiService.FetchResult.

(** X14. Saving an exercise: without a name or a duration nothing is saved, an
    alert is shown and no request is made.  Otherwise an entry is saved
    whose calories are never NaN, [null] or [undefined] (such values are
    stored as 0).  When the calories field holds a number other than 0
    that number is stored and no request is made.  In the other case an
    estimate is asked for, at the cost of at most two requests: its
    calories are stored, unless they cannot be shown as text in the form,
    in which case three calories for each minute of the duration are. *)
Theorem saveExerciseLog_calories
  (exName exDuration exCals : string) (exIntensity : Level)
  (userProfile : option UserProfile.t) (initialEntry : option LogEntry.t)
  (now1 now2 : Z) :
  let result := saveExerciseLog ToString parseInt server exName exDuration exCals
                  exIntensity userProfile initialEntry now1 now2 in
  let estimate :=
    Estimate.calories
      (GeminiService.estimateExerciseCalories ToString server exName
         (parseInt exDuration) (levelName exIntensity)
         (getSafeProfile userProfile)) in
  ((exName = EmptyString \/ exDuration = EmptyString) ->
     result = (None, ["Please enter exercise name and duration."%string], []))
  /\ (exName <> EmptyString -> exDuration <> EmptyString ->
      exists entry,
        fst (fst result) = Some entry
        /\ snd (fst result) = []
        /\ (SavedExercise.caloriesBurned entry = JNum 0
            \/ truthy (SavedExercise.caloriesBurned entry) = true)
        /\ (is_nan (parseInt exCals) = false ->
            is_zero (parseInt exCals) = false ->
            SavedExercise.caloriesBurned entry = JNum (parseInt exCals)
            /\ snd result = [])
        /\ (is_nan (parseInt exCals) = true \/ is_zero (parseInt exCals) = true ->
            snd result = snd (GeminiService.callApi ToString server 2)
            /\ (toString_throws estimate = false ->
                SavedExercise.caloriesBurned entry = or_else estimate (JNum 0))
            /\ (toString_throws estimate = true ->
                SavedExercise.caloriesBurned entry
                = or_else (JNum (parseInt exDuration * 3)) (JNum 0)))
        /\ (Derived.fetchCount (snd result) <= 2)%nat).
Proof.
  cbv zeta. unfold saveExerciseLog. split.
  - intros [-> | ->]; [reflexivity|].
    rewrite orb_true_r. reflexivity.
  - intros Nn Nd. apply String.eqb_neq in Nn, Nd. rewrite Nn, Nd. cbn [orb].
    change (parseInt exCals =? 0) with (is_zero (parseInt exCals)).
    assert (cost : (Derived.fetchCount
                      (snd (GeminiService.callApi ToString server 2)) <= 2)%nat).
    { destruct (callApiLoop_policy ToString server 2 2 0 eq_refl)
        as (n & B & T & _).
      unfold GeminiService.callApi. rewrite T.
      destruct n as [|[|[|n]]]; cbn; lia. }
    assert (estimated :
      forall calories : value,
        or_else calories (JNum 0) = JNum 0
        \/ truthy (or_else calories (JNum 0)) = true).
    { intro calories. unfold or_else.
      destruct (truthy calories) eqn:T; auto. }
    destruct (is_nan (parseInt exCals)) eqn:N;
      [|destruct (is_zero (parseInt exCals)) eqn:Hz]; cbn [orb];
      eexists; cbn [fst snd]; (split; [reflexivity|]); (split; [reflexivity|]);
      cbn [SavedExercise.caloriesBurned].
    + split; [apply estimated|].
      split; [discriminate|]. split; [|exact cost].
      intros _. split; [reflexivity|].
      split; intros ->; reflexivity.
    + split; [apply estimated|].
      split; [discriminate|]. split; [|exact cost].
      intros _. split; [reflexivity|].
      split; intros ->; reflexivity.
    + rewrite (or_else_number _ N Hz).
      split; [right; cbn [truthy]; rewrite N, Hz; reflexivity|].
      split; [intros _ _; split; reflexivity|].
      split; [intros [H|H]; discriminate H | cbn; lia].
Qed.

End Saving.

(** ** Cost of a call *)

Section CallCost.

Import JS GeminiService.
Open Scope string_scope.
Open Scope nat_scope.

Variable ToString : value -> string.
Variable server : nat -> FetchResult.

Lemma backoffFrom_fetchCount (i n : nat) :
  Derived.fetchCount (Spec.backoffFrom i n) = n.
Proof.
  destruct n as [|m]; [reflexivity|].
  unfold Spec.backoffFrom, Derived.fetchCount. cbn [filter List.length].
  f_equal. revert i. induction m as [|m IH]; intro i; [reflexivity|].
  cbn [seq flat_map app filter List.length]. f_equal. apply IH.
Qed.

Lemma backoffFrom_totalSleep (i n : nat) :
  (Derived.totalSleep (Spec.backoffFrom i (S n))
   = 3000 * (2 ^ Z.of_nat (i + n) - 2 ^ Z.of_nat i))%Z.
Proof.
  unfold Spec.backoffFrom.
  revert i. induction n as [|n IH]; intro i.
  - cbn [seq flat_map Derived.totalSleep]. replace (i + 0) with i by lia. lia.
  - specialize (IH (S i)). cbn [seq flat_map app Derived.totalSleep] in *.
    rewrite IH. replace (S i + n) with (i + S n) by lia.
    replace (Z.of_nat (S i)) with (Z.of_nat i + 1)%Z by lia.
    rewrite Z.pow_add_r by lia. change (2 ^ 1)%Z with 2%Z. lia.
Qed.

(** X15. A call with [retries] permitted attempts sends at most [retries]
    requests and pauses for [3000 * (2^(n-1) - 1)] ms in all when it sends
    [n] of them: never with one permitted attempt, at most 3 s with two
    and at most 9 s with three. *)
Theorem callApi_cost (retries : nat) :
  0 < retries ->
  exists n,
    0 < n <= retries
    /\ Derived.fetchCount (snd (callApi ToString server retries)) = n
    /\ (Derived.totalSleep (snd (callApi ToString server retries))
        = 3000 * (2 ^ (Z.of_nat n - 1) - 1))%Z
    /\ (Derived.totalSleep (snd (callApi ToString server retries))
        <= 3000 * (2 ^ (Z.of_nat retries - 1) - 1))%Z.
Proof.
  intros R.
  destruct (callApiLoop_policy ToString server retries retries 0 eq_refl)
    as (n & B & T & _ & P & _).
  destruct (P R) as [N _]. exists n. unfold callApi. rewrite T.
  split; [lia|]. split; [apply backoffFrom_fetchCount|].
  destruct n as [|m]; [lia|].
  rewrite backoffFrom_totalSleep. change (0 + m) with m.
  replace (Z.of_nat (S m) - 1)%Z with (Z.of_nat m) by lia.
  change (2 ^ Z.of_nat 0)%Z with 1%Z. split; [reflexivity|].
  assert (2 ^ Z.of_nat m <= 2 ^ (Z.of_nat retries - 1))%Z
    by (apply Z.pow_le_mono_r; lia).
  lia.
Qed.

(** X16. When none of the failures met is classified as server-busy, a call
    sends at most two requests however many attempts it is permitted:
    what is observed is one fetch, or a fetch, a pause of 3 s and a second
    fetch. *)
Theorem callApi_other_errors_cost (retries : nat) :
  (forall i message,
     attempt ToString (server i) = Thrown message -> isRateLimit message = false) ->
  0 < retries ->
  snd (callApi ToString server retries) = [Fetch]
  \/ snd (callApi ToString server retries) = [Fetch; Sleep 3000; Fetch].
Proof.
  intros F R.
  destruct (callApiLoop_policy ToString server retries retries 0 eq_refl)
    as (n & B & T & _ & P & Q & _).
  destruct (P R) as [N _]. unfold callApi. rewrite T.
  destruct n as [|[|[|n]]]; [lia | left; reflexivity | right; reflexivity |].
  exfalso. destruct (Q 1 ltac:(lia) ltac:(lia)) as (message & A & [C|C]);
    [|discriminate].
  rewrite (F 1 message A) in C. discriminate.
Qed.

(** X17. When every attempt meets a rate-limit or overload response, all the
    permitted attempts are used and the call fails with the last
    attempt's server-busy error. *)
Theorem callApi_busy_exhausts (retries : nat) :
  (forall i, Spec.serverBusy (server i)) ->
  0 < retries ->
  snd (callApi ToString server retries) = Spec.backoffTrace retries
  /\ exists message,
       fst (callApi ToString server retries) = Thrown message
       /\ isRateLimit message = true.
Proof.
  intros Busy R.
  destruct (callApiLoop_policy ToString server retries retries 0 eq_refl)
    as (n & B & T & _ & P & _ & E).
  destruct (P R) as [N L]. unfold callApi, Spec.backoffTrace.
  cbn [Nat.add] in *.
  destruct (busy_is_rate_limit ToString (server (n - 1)) (Busy (n - 1)))
    as (message & A & C).
  assert (n = retries) as ->.
  { destruct (Nat.eq_dec n retries) as [|Ne]; [assumption|].
    exfalso. destruct (E ltac:(lia)) as [(data & D) | (m & D & Cm & _)];
      rewrite A in D; [discriminate|].
    injection D as <-. rewrite C in Cm. discriminate. }
  split; [exact T|]. exists message. rewrite L. split; assumption.
Qed.

End CallCost.

(** ** Analysed items *)

Section AnalysedItems.

Import JS GeminiService Services.
Open Scope string_scope.

Variable ToString : value -> string.
Variable ToNumberOther : value -> number.
Variable server : nat -> FetchResult.

Lemma or_else_truthy (a b : value) : truthy b = true -> truthy (or_else a b) = true.
Proof.
  intros H. unfold or_else. destruct (truthy a) eqn:T; assumption.
Qed.

Lemma withBaseValues_wellScaled (item out : value) :
  withBaseValues ToNumberOther item = Returned out -> Derived.wellScaled ToNumberOther out.
Proof.
  unfold withBaseValues.
  destruct (get item "quantityAmount") as [amount|m]; [|discriminate].
  destruct (existsb toString_throws _); [discriminate|].
  intros H. injection H as <-. unfold Derived.wellScaled, prop.
  cbn [get lookup String.eqb Ascii.eqb Bool.eqb].
  split; [apply or_else_truthy; reflexivity|].
  split; [apply or_else_truthy; reflexivity|].
  intros key base [E|[E|[E|[E|[]]]]]; injection E as <- <-; reflexivity.
Qed.

Lemma mapItems_Forall (P : value -> Prop) (callback : value -> outcome value) :
  (forall x y, callback x = Returned y -> P y) ->
  forall l ys, mapItems callback l = Returned ys ->
               Forall P ys /\ List.length ys = List.length l.
Proof.
  intros H. induction l as [|x l IH]; intros ys E; cbn [mapItems] in E.
  - injection E as <-. split; [constructor | reflexivity].
  - destruct (callback x) as [y|] eqn:C; [|discriminate].
    destruct (mapItems callback l) as [ys'|]; [|discriminate].
    injection E as <-. destruct (IH ys' eq_refl) as [F L].
    split; [constructor; eauto | cbn; congruence].
Qed.

Lemma withBaseValues_scaledFrom (item out : value) :
  withBaseValues ToNumberOther item = Returned out -> Derived.scaledFrom item out.
Proof.
  unfold withBaseValues, Derived.scaledFrom.
  destruct (get item "quantityAmount") as [amount|m] eqn:G; [|discriminate].
  destruct (existsb toString_throws _); [discriminate|].
  intros H. injection H as <-.
  replace (prop item "quantityAmount") with amount
    by (unfold prop; rewrite G; reflexivity).
  split; [reflexivity|]. split; reflexivity.
Qed.

Lemma mapItems_Forall2 (R : value -> value -> Prop)
  (callback : value -> outcome value) :
  (forall x y, callback x = Returned y -> R x y) ->
  forall l ys, mapItems callback l = Returned ys -> Forall2 R l ys.
Proof.
  intros H. induction l as [|x l IH]; intros ys E; cbn [mapItems] in E.
  - injection E as <-. constructor.
  - destruct (callback x) as [y|] eqn:C; [|discriminate].
    destruct (mapItems callback l) as [ys'|]; [|discriminate].
    injection E as <-. constructor; eauto.
Qed.

Lemma mapOrEmpty_Forall (source : string) (array : value)
  (items : list value) :
  mapOrEmpty ToNumberOther source array = Returned items ->
  Forall (Derived.wellScaled ToNumberOther) items /\ (truthy array = false -> items = []).
Proof.
  unfold mapOrEmpty, or_else. intros H. split.
  - destruct (if truthy array then array else JArr []); try discriminate.
    eapply mapItems_Forall; [exact withBaseValues_wellScaled | exact H].
  - intros F. rewrite F in H. cbn in H. congruence.
Qed.

(** X18. Every item that an analysis returns has a truthy quantity and a
    truthy unit, and its four base values are its calories, protein, carbs
    and fat divided by that quantity, each converted to a number.  The
    items returned are those of the reply, one for one: each keeps its
    name, its amount as quantity (1 when the amount is missing, zero or
    otherwise falsy) and its unit ("serving" when it is falsy).  A reply
    without items gives the empty list; a failure is announced by exactly
    one alert carrying the error message, and is passed on. *)
Theorem analyzeImageOrText_items :
  (forall r,
     fst (analyzeImageOrText ToString ToNumberOther server) = Returned r ->
     Forall (Derived.wellScaled ToNumberOther) (Analysis.items r)
     /\ snd (analyzeImageOrText ToString ToNumberOther server) = [])
  /\ (forall result r,
        fst (callApi ToString server 3) = Returned result ->
        truthy (prop result "items") = false ->
        fst (analyzeImageOrText ToString ToNumberOther server) = Returned r ->
        Analysis.items r = [])
  /\ (forall result elems r,
        fst (callApi ToString server 3) = Returned result ->
        prop result "items" = JArr elems ->
        fst (analyzeImageOrText ToString ToNumberOther server) = Returned r ->
        Forall2 Derived.scaledFrom elems (Analysis.items r))
  /\ (forall message,
        fst (analyzeImageOrText ToString ToNumberOther server) = Thrown message ->
        snd (analyzeImageOrText ToString ToNumberOther server)
        = ["Analysis failed: " ++ message]).
Proof.
  unfold analyzeImageOrText, analyze.
  destruct (fst (callApi ToString server 3)) as [result|m] eqn:C.
  2:{ split; [intros r H; discriminate H|].
      split; [intros ? r H; discriminate H|].
      split; [intros ? ? r H; discriminate H|].
      intros message H. injection H as <-. reflexivity. }
  unfold prop at 3 4.
  destruct (get result "items") as [array|m] eqn:G.
  2:{ split; [intros r H; discriminate H|].
      split; [intros ? r _ _ H; discriminate H|].
      split; [intros ? ? r _ _ H; discriminate H|].
      intros message H. injection H as <-. reflexivity. }
  destruct (mapOrEmpty ToNumberOther "result.items" array) as [items|m] eqn:M.
  2:{ split; [intros r H; discriminate H|].
      split; [intros ? r _ _ H; discriminate H|].
      split; [intros ? ? r _ _ H; discriminate H|].
      intros message H. injection H as <-. reflexivity. }
  destruct (mapOrEmpty_Forall _ array items M) as [F E].
  split; [intros r H; injection H as <-; split; [exact F | reflexivity]|].
  split; [|split; [|intros message H; discriminate H]].
  - intros result' r R T H. injection R as <-. injection H as <-.
    cbn [Analysis.items]. apply E. unfold prop in T. rewrite G in T. exact T.
  - intros result' elems r R A H. injection R as <-. injection H as <-.
    cbn [Analysis.items]. unfold prop in A. rewrite G in A. subst array.
    unfold mapOrEmpty, or_else in M. cbn [truthy] in M.
    apply (mapItems_Forall2 _ _ withBaseValues_scaledFrom _ _ M).
Qed.


End AnalysedItems.

(** ** The endpoint: model fallback and error replies *)

Section Endpoint.

Import JS ApiHandler.
Open Scope string_scope.

Lemma last_cons_nonempty (x : string) (l : list string) :
  l <> [] -> Derived.lastModel (x :: l) = Derived.lastModel l.
Proof.
  destruct l; [contradiction | reflexivity].
Qed.

Lemma fallbackLoop_spec (operation : string -> value + ApiError.t) :
  forall models lastError,
    models <> [] ->
    exists rest,
      models = (snd (fallbackLoop operation models lastError) ++ rest)%list
      /\ snd (fallbackLoop operation models lastError) <> []
      /\ fst (fallbackLoop operation models lastError)
         = operation (Derived.lastModel (snd (fallbackLoop operation models lastError)))
      /\ (forall m, In m (removelast (snd (fallbackLoop operation models lastError))) ->
            exists e, operation m = inr e /\ isModelError e = true)
      /\ (rest <> [] ->
          forall e, fst (fallbackLoop operation models lastError) = inr e ->
                    isModelError e = false).
Proof.
  induction models as [|candidate models IH]; intros lastError NE;
    [contradiction|].
  cbn [fallbackLoop].
  destruct (operation candidate) as [result|error] eqn:O.
  - exists models. cbn. rewrite O.
    repeat split; try discriminate; try contradiction.
  - destruct (isModelError error) eqn:M.
    + destruct models as [|next models].
      * exists []. cbn. rewrite O.
        repeat split; try discriminate; try contradiction.
      * destruct (IH (Some error) ltac:(discriminate))
          as (rest & E & N & R & P & Q).
        destruct (fallbackLoop operation (next :: models) (Some error))
          as [result tried].
        cbn [fst snd] in *. exists rest.
        split; [cbn; congruence|]. split; [discriminate|].
        split; [rewrite last_cons_nonempty by exact N; exact R|].
        split; [|exact Q].
        intros m Hm. destruct tried as [|t tried]; [contradiction|].
        cbn [removelast] in Hm. destruct Hm as [<-|Hm]; [eauto|].
        apply P. exact Hm.
    + exists models. cbn. rewrite O.
      repeat split; try discriminate; try contradiction.
      intros _ e H. injection H as <-. exact M.
Qed.

(** X20. A generation is tried on the candidate models in their listed order,
    each at most once, so at most four times.  What comes back is exactly
    the outcome of the last model tried, never a generic error: every
    model before it failed as unavailable, and unless all four were tried
    an error that comes back is not a model-unavailable one. *)
Theorem executeWithFallback_order (operation : string -> value + ApiError.t) :
  let result := fst (executeWithFallback operation) in
  let tried := snd (executeWithFallback operation) in
  exists rest,
    CANDIDATE_MODELS = (tried ++ rest)%list
    /\ tried <> []
    /\ (List.length tried <= 4)%nat
    /\ result = operation (Derived.lastModel tried)
    /\ (forall m, In m (removelast tried) ->
          exists e, operation m = inr e /\ isModelError e = true)
    /\ (rest <> [] -> forall e, result = inr e -> isModelError e = false).
Proof.
  cbv zeta. unfold executeWithFallback.
  destruct (fallbackLoop_spec operation CANDIDATE_MODELS None ltac:(discriminate))
    as (rest & E & N & R & P & Q).
  exists rest. split; [exact E|]. split; [exact N|]. split.
  - apply (f_equal (@List.length string)) in E.
    rewrite length_app in E.
    change (List.length CANDIDATE_MODELS) with 4%nat in E. lia.
  - split; [exact R|]. split; [exact P | exact Q].
Qed.

Variable ToString : value -> string.

(** X21. An upstream error whose message mentions 429 or a quota is answered
    with status 429 whatever status it carried, and the client takes that
    reply for a rate-limit response: its attempt fails with the
    server-busy error, which is the kind it retries. *)
Theorem quota_error_is_retried (e : ApiError.t) (text : string) :
  messageIncludes e "429" = true \/ messageIncludes e "Quota" = true
  \/ messageIncludes e "quota" = true ->
  Response.status (errorReply e text) = 429%Z
  /\ Spec.serverBusy (GeminiService.Responded (errorReply e text))
  /\ GeminiService.attempt ToString (GeminiService.Responded (errorReply e text))
     = Thrown "Server is busy (Status 429)"
  /\ GeminiService.isRateLimit "Server is busy (Status 429)" = true.
Proof.
  intros H.
  assert (St : errorStatus e = 429%Z).
  { unfold errorStatus.
    destruct H as [H|[H|H]]; rewrite H; rewrite ?orb_true_r; reflexivity. }
  split; [exact St|]. split.
  - eexists. split; [reflexivity|]. left. exact St.
  - split; [|reflexivity].
    unfold GeminiService.attempt. cbn [errorReply Response.status]. rewrite St.
    reflexivity.
Qed.

End Endpoint.

(** ** Instant feedback *)

Section InstantFeedback.

Import JS AppHandlers.

Variable ToString : value -> string.
Variable server : nat -> GeminiService.FetchResult.

(** X22. A new entry is stored at the head of the log list whatever happens to
    the feedback request, which is sent once and never repeated: if that
    one attempt fails, whatever the error, the modal ends closed with no
    message, and if it returns an object the modal ends open, not
    loading, with the [text] of the answer. *)
Theorem new_entry_feedback
  (entry : LogEntry.t) (prev : list LogEntry.t) (modal : FeedbackModal.t) :
  let after := handleSaveEntry ToString server None entry prev modal in
  fst after = entry :: prev
  /\ FeedbackModal.isLoading (snd after) = false
  /\ snd (GeminiService.callApi ToString server 1) = [GeminiService.Fetch]
  /\ (forall message,
        GeminiService.attempt ToString (server 0) = Thrown message ->
        snd after = {| FeedbackModal.isOpen := false;
                       FeedbackModal.isLoading := false;
                       FeedbackModal.message := None |})
  /\ (forall props,
        GeminiService.attempt ToString (server 0) = Returned (JObj props) ->
        snd after = {| FeedbackModal.isOpen := true;
                       FeedbackModal.isLoading := false;
                       FeedbackModal.message := Some (lookup "text" props) |}).
Proof.
  cbv zeta. cbn [handleSaveEntry fst snd].
  unfold Services.getInstantFeedback, GeminiService.callApi.
  cbn [GeminiService.callApiLoop].
  destruct (GeminiService.attempt ToString (server 0)) as [data|m] eqn:A;
    cbn [fst snd Nat.sub Nat.eqb].
  - split; [reflexivity|]. split; [destruct (get data "text"); reflexivity|].
    split; [reflexivity|]. split; [intros message H; discriminate H|].
    intros props H. injection H as ->. reflexivity.
  - split; [reflexivity|]. split; [reflexivity|]. split; [reflexivity|].
    split; [reflexivity|]. intros props H. discriminate H.
Qed.

End InstantFeedback.

(** ** Offline estimate for the form's intensities *)

Section FormEstimate.

Import JS GeminiService.

Variable ToString : value -> string.
Variable server : nat -> FetchResult.

(** X23. With an intensity the form offers, an estimate whose remote call
    fails is the local one: the rounded product of the MET value (4 for
    low, 8 for medium, 12 for high), 3.5, the weight, and the duration,
    over 200, with the offline note. *)
Theorem estimate_offline_for_form
  (name : string) (duration : number) (intensity : Level)
  (profile : UserProfile.t) (message : string) :
  fst (callApi ToString server 2) = Thrown message ->
  estimateExerciseCalories ToString server name duration
    (EntryFormSave.levelName intensity) profile
  = {| Estimate.calories :=
         JNum (Math_round
                 ((Derived.metOf intensity * 3.5 * UserProfile.weightKg profile)
                  / 200 * duration)%float);
       Estimate.note := JStr "Offline estimate (API unavailable)." |}.
Proof.
  intros E. rewrite (estimateExerciseCalories_offline ToString server _ _ _ _ _ E).
  destruct intensity; reflexivity.
Qed.

End FormEstimate.

(** ** Restoring twice *)

Section RestoreTwice.

Import JS App.

(** X24. Restoring a backup never touches the chat transcript, restoring the
    same file a second time changes nothing more and shows the same
    alert, and the backup written does not depend on the transcript. *)
Theorem importData_idempotent (file : option File) (st : AppState.t) :
  AppState.chatHistory (fst (importData file st)) = AppState.chatHistory st
  /\ importData file (fst (importData file st)) = importData file st
  /\ (forall st',
        AppState.profile st' = AppState.profile st ->
        AppState.logs st' = AppState.logs st ->
        exportData st' = exportData st).
Proof.
  split; [|split].
  - unfold importData. destruct file as [content|]; [|reflexivity].
    destruct (JSON_parse content) as [data|]; [|reflexivity].
    destruct (get data "profile") as [p|]; [|reflexivity].
    destruct (truthy p); [|reflexivity].
    destruct (get data "logs") as [l|]; [|reflexivity].
    destruct (truthy l); reflexivity.
  - unfold importData. destruct file as [content|]; [|reflexivity].
    destruct (JSON_parse content) as [data|]; [|reflexivity].
    destruct (get data "profile") as [p|]; [|reflexivity].
    destruct (truthy p); [|reflexivity].
    destruct (get data "logs") as [l|]; [|reflexivity].
    destruct (truthy l); reflexivity.
  - intros st' P L. unfold exportData. rewrite P, L. reflexivity.
Qed.

End RestoreTwice.

(** ** Further instances *)

Section FurtherInstances.

Import JS.
Open Scope string_scope.

Example todaysLogList_sample :
  map LogEntry.id (Dashboard.todaysLogList Spec.utc (Derived.lunch :: rev Spec.sampleLogs) (Spec.stopped 5000))
  = ["3000"; "2000"; "1000"].
Proof. vm_compute. reflexivity. Qed.

Example progress_sample :
  map (fun amount => Dashboard.progress amount 98) [49; 196; 0]%float
  = [50; 100; 0]%float
  /\ Dashboard.progress 0 0 = nan.
Proof. split; vm_compute; reflexivity. Qed.

Example executeWithFallback_sample :
  ApiHandler.executeWithFallback Derived.onlyPro
  = (inl (JStr "ok"), ApiHandler.CANDIDATE_MODELS).
Proof. vm_compute. reflexivity. Qed.

(** A reply whose calories hide [toString]: the form cannot show them and
    45 minutes are saved as 135 calories. *)
Example saveExerciseLog_fallback :
  option_map SavedExercise.caloriesBurned
    (fst (fst (EntryFormSave.saveExerciseLog Spec.noToString
                 Derived.parseIntSample (fun _ => Derived.oddEstimate)
                 "Run" "45" EmptyString medium None None 7000 7001)))
  = Some (JNum 135%float).
Proof. vm_compute. reflexivity. Qed.

Example analyzeImageOrText_sample :
  option_map
    (map (fun item => (Services.prop item "quantity",
                       Services.prop item "unit",
                       Services.prop item "baseCalories")))
    match fst (Services.analyzeImageOrText Spec.noToString Derived.noNumber
                 (fun _ => Derived.analysisReply)) with
    | Returned r => Some (Analysis.items r)
    | Thrown _ => None
    end
  = Some [(JNum 1, JStr "serving", JNum 200);
          (JNum 2, JStr "piece", JNum 70)]%float.
Proof. vm_compute. reflexivity. Qed.

Lemma recentLogs_most_recent_witness :
  Permutation (AppHandlers.recentLogs Spec.sampleLogs) Spec.sampleLogs.
Proof.
  apply (proj2 (proj2 (proj2 (proj2 (proj2
           (recentLogs_most_recent Spec.sampleLogs)))))).
  cbn. repeat constructor.
Defined.

Lemma todaysLogList_same_entries_witness :
  Zones.Days Spec.newYork
  /\ Permutation
       (Dashboard.todaysLogList Spec.newYork Spec.longSunday
          (Spec.stopped Spec.sundayEvening))
       (Dashboard.todayLogs Spec.newYork Spec.longSunday 1699158700000).
Proof.
  split; [exact (proj1 newYork_laws)|].
  apply (proj2 (proj2 (todaysLogList_same_entries Spec.newYork
                         (proj1 newYork_laws) Spec.longSunday
                         1699158700000 (Spec.stopped Spec.sundayEvening)
                         19666%Z (fun _ => eq_refl)))).
  vm_compute. reflexivity.
Defined.

Lemma other_day_entry_ignored_witness :
  Zones.Days Spec.newYork
  /\ Dashboard.todayTotals Spec.newYork
       ([Spec.lateMeal] ++ Spec.saturdayMeal :: [Spec.earlyMeal])
       Spec.sundayEvening
     = Dashboard.todayTotals Spec.newYork
         ([Spec.lateMeal] ++ [Spec.earlyMeal]) Spec.sundayEvening.
Proof.
  split; [exact (proj1 newYork_laws)|].
  apply (other_day_entry_ignored Spec.newYork (proj1 newYork_laws)
           [Spec.lateMeal] [Spec.earlyMeal] Spec.saturdayMeal
           Spec.sundayEvening).
  intro H. vm_compute in H. discriminate H.
Defined.

Lemma hasStrength_monotone_witness :
  Dashboard.hasStrength Spec.newYork Spec.longSunday Spec.sundayEvening = true.
Proof.
  apply (hasStrength_monotone Spec.newYork [Spec.earlyDeadlift]
           Spec.longSunday Spec.sundayEvening).
  - intros x [<-|[]]. simpl. right. left. reflexivity.
  - reflexivity.
Defined.

Lemma chartData_outside_window_witness :
  Zones.Laws Spec.newYork
  /\ Dashboard.chartData Spec.newYork
       ([Spec.lateMeal] ++ Spec.breakfast :: [Spec.saturdayMeal])
       (Spec.stopped Spec.sundayEvening)
     = Dashboard.chartData Spec.newYork
         ([Spec.lateMeal] ++ [Spec.saturdayMeal])
         (Spec.stopped Spec.sundayEvening).
Proof.
  split; [exact newYork_laws|].
  apply (chartData_outside_window Spec.newYork (proj1 newYork_laws)
           (proj2 newYork_laws) [Spec.lateMeal] [Spec.saturdayMeal]
           Spec.breakfast (Spec.stopped Spec.sundayEvening) 19666%Z).
  - intros i _. reflexivity.
  - left. vm_compute. reflexivity.
Defined.

Lemma create_then_delete_witness :
  AppHandlers.handleDeleteLog true (LogEntry.id Derived.lunch)
    (fst (AppHandlers.handleSaveEntry Spec.noToString Spec.offline None
            Derived.lunch Spec.sampleLogs Derived.closedModal))
  = Spec.sampleLogs.
Proof.
  apply (create_then_delete Spec.noToString Spec.offline Derived.lunch
           Spec.sampleLogs Derived.closedModal).
  intros l [<-|[<-|[<-|[]]]]; discriminate.
Defined.

Lemma edit_replaces_in_place_witness :
  fst (AppHandlers.handleSaveEntry Spec.noToString Spec.offline
         (Some Derived.lunch) Derived.lunch Spec.sampleLogs Derived.closedModal)
  = Spec.sampleLogs.
Proof.
  apply (proj1 (proj2 (proj2
           (edit_replaces_in_place Spec.noToString Spec.offline Derived.lunch
              Derived.lunch Spec.sampleLogs Derived.closedModal)))).
  intros l [<-|[<-|[<-|[]]]]; discriminate.
Defined.

Lemma edit_keeps_days_witness :
  map LogEntry.id
    (Spec.entriesOn Spec.utc 0
       (fst (AppHandlers.handleSaveEntry Spec.noToString Spec.offline
               (Some Spec.diary)
               (EntryFormSave.saveNoteLog "Feeling better" (Some Spec.diary) 9000 9001)
               Spec.sampleLogs Derived.closedModal)))
  = map LogEntry.id (Spec.entriesOn Spec.utc 0 Spec.sampleLogs).
Proof.
  apply (proj1 (edit_keeps_days Spec.utc Spec.noToString Spec.offline Spec.diary
                  Spec.sampleLogs Derived.closedModal "Feeling better"
                  [] None 9000 9001 0
                  ltac:(repeat constructor; simpl; intuition discriminate)
                  ltac:(simpl; left; reflexivity))).
Defined.

Lemma chat_turn_witness :
  AppHandlers.handleSendChatMessage Spec.noToString Spec.offline "   "
    Spec.sampleLogs [] 1 2 3 4 = (Spec.sampleLogs, [])
  /\ exists userMsg modelMsg,
       snd (AppHandlers.handleSendChatMessage Spec.noToString Spec.offline
              "How much protein?" Spec.sampleLogs [] 1 2 3 4)
       = [userMsg; modelMsg].
Proof.
  split.
  - apply (proj1 (chat_turn Spec.noToString Spec.offline "   "
                    Spec.sampleLogs [] 1 2 3 4)).
    reflexivity.
  - destruct (proj2 (chat_turn Spec.noToString Spec.offline "How much protein?"
                       Spec.sampleLogs [] 1 2 3 4) ltac:(discriminate))
      as (userMsg & modelMsg & E & _).
    exists userMsg, modelMsg. exact E.
Defined.

Lemma updateItemQuantity_last_wins_witness :
  EntryForm.updateItemQuantity
    (Some (EntryForm.setAt [Spec.oats; Spec.oats] 0
             (EntryForm.rescale Spec.oats 2%float))) 0 3%float
  = EntryForm.updateItemQuantity (Some [Spec.oats; Spec.oats]) 0 3%float.
Proof.
  apply (proj1 (updateItemQuantity_last_wins [Spec.oats; Spec.oats]
                  (EntryForm.setAt [Spec.oats; Spec.oats] 0
                     (EntryForm.rescale Spec.oats 2%float))
                  0 1 2%float 3%float eq_refl)).
Defined.


Lemma saveExerciseLog_calories_witness :
  exists entry,
    fst (fst (EntryFormSave.saveExerciseLog Spec.noToString Derived.parseIntSample
                Spec.offline "Run" "45" "300" medium None None 7000 7001))
    = Some entry
    /\ SavedExercise.caloriesBurned entry = JNum 300%float
    /\ snd (EntryFormSave.saveExerciseLog Spec.noToString Derived.parseIntSample
              Spec.offline "Run" "45" "300" medium None None 7000 7001) = [].
Proof.
  destruct (proj2 (saveExerciseLog_calories Spec.noToString Derived.parseIntSample
                     Spec.offline "Run" "45" "300" medium None None 7000 7001)
              ltac:(discriminate) ltac:(discriminate))
    as (entry & A & _ & _ & D & _).
  exists entry. split; [exact A|]. exact (D eq_refl eq_refl).
Defined.


Lemma callApi_cost_witness :
  (Derived.totalSleep (snd (GeminiService.callApi Spec.noToString Spec.alwaysBusy 3))
   <= 9000)%Z.
Proof.
  destruct (callApi_cost Spec.noToString Spec.alwaysBusy 3 ltac:(repeat constructor))
    as (n & _ & _ & _ & L).
  exact L.
Defined.

Lemma callApi_other_errors_cost_witness :
  snd (GeminiService.callApi Spec.noToString (fun _ => Spec.badRequest) 3)
    = [GeminiService.Fetch]
  \/ snd (GeminiService.callApi Spec.noToString (fun _ => Spec.badRequest) 3)
     = [GeminiService.Fetch; GeminiService.Sleep 3000; GeminiService.Fetch].
Proof.
  apply (callApi_other_errors_cost Spec.noToString (fun _ => Spec.badRequest) 3).
  - intros i message H. vm_compute in H. injection H as <-. reflexivity.
  - repeat constructor.
Defined.

Lemma callApi_busy_exhausts_witness :
  snd (GeminiService.callApi Spec.noToString Spec.alwaysBusy 3)
  = Spec.backoffTrace 3.
Proof.
  apply (callApi_busy_exhausts Spec.noToString Spec.alwaysBusy 3).
  - intros i. eexists. split; [reflexivity|]. left. reflexivity.
  - repeat constructor.
Defined.

Lemma analyzeImageOrText_items_witness :
  exists r,
    fst (Services.analyzeImageOrText Spec.noToString Derived.noNumber
           (fun _ => Derived.analysisReply)) = Returned r
    /\ Forall (Derived.wellScaled Derived.noNumber) (Analysis.items r).
Proof.
  pose proof (proj1 (analyzeImageOrText_items Spec.noToString Derived.noNumber
                       (fun _ => Derived.analysisReply))) as H.
  destruct (fst (Services.analyzeImageOrText Spec.noToString Derived.noNumber
                   (fun _ => Derived.analysisReply))) as [r|m] eqn:E.
  - exists r. split; [reflexivity|]. apply (H r eq_refl).
  - vm_compute in E. discriminate E.
Defined.

Lemma executeWithFallback_order_witness :
  exists rest,
    ApiHandler.CANDIDATE_MODELS
    = (snd (ApiHandler.executeWithFallback Derived.onlyPro) ++ rest)%list
    /\ fst (ApiHandler.executeWithFallback Derived.onlyPro)
       = Derived.onlyPro
           (Derived.lastModel (snd (ApiHandler.executeWithFallback Derived.onlyPro))).
Proof.
  destruct (executeWithFallback_order Derived.onlyPro)
    as (rest & E & _ & _ & R & _).
  exists rest. split; [exact E | exact R].
Defined.

Lemma quota_error_is_retried_witness :
  Response.status (ApiHandler.errorReply Derived.quotaError EmptyString) = 429%Z.
Proof.
  apply (quota_error_is_retried Spec.noToString Derived.quotaError EmptyString).
  right. left. reflexivity.
Defined.

Lemma estimate_offline_for_form_witness :
  GeminiService.estimateExerciseCalories Spec.noToString Spec.offline
    "Rowing" 30%float "medium" Spec.exampleProfile
  = {| Estimate.calories := JNum 294%float;
       Estimate.note := JStr "Offline estimate (API unavailable)." |}.
Proof.
  apply (estimate_offline_for_form Spec.noToString Spec.offline "Rowing"
           30%float medium Spec.exampleProfile "Failed to fetch" eq_refl).
Defined.

Lemma importData_idempotent_witness :
  App.exportData
    {| AppState.profile := AppState.profile Spec.sampleState;
       AppState.logs := AppState.logs Spec.sampleState;
       AppState.chatHistory := JArr [JStr "Hi!"] |}
  = App.exportData Spec.sampleState.
Proof.
  apply (proj2 (proj2 (importData_idempotent None Spec.sampleState))).
  - reflexivity.
  - reflexivity.
Defined.

Lemma new_entry_feedback_witness :
  snd (AppHandlers.handleSaveEntry Spec.noToString Spec.offline None
         Derived.lunch Spec.sampleLogs Derived.closedModal)
  = Derived.closedModal.
Proof.
  apply (proj1 (proj2 (proj2 (proj2
           (new_entry_feedback Spec.noToString Spec.offline Derived.lunch
              Spec.sampleLogs Derived.closedModal))))
           "Failed to fetch").
  reflexivity.
Defined.

End FurtherInstances.
